(** * AOI defect dashboard: outcome classification, loop collapsing,
      ingestion and issue change log

    A shallow embedding of the Python sources
      - [aoi_classify.py]        (the 4-way classifier and its CLI),
      - [aoi_defect_status.py]   (the loop collapser, the 3-way rule, its CLI),
      - [ingest_to_db.py]        (the [defects] table and [upsert_df]),
      - [pages/action_tracker.py] (issue change log, outcome tallies),
    followed by the properties proved about them. *)

From Stdlib Require Import ZArith Lia Ascii String.
From stdpp Require Import gmap strings list sorting pretty.

Local Open Scope string_scope.
Local Open Scope list_scope.
Local Open Scope Z_scope.

(* ===================================================================== *)
(** * Python results *)
(* ===================================================================== *)

(** A Python call either returns a value or raises.  Only the exceptions
    the modelled code can raise are listed. *)
Inductive exn :=
  | KeyError (label : string)      (* [row[label]] / [df[label]] on a missing label *)
  | ValueError (msg : string)      (* [pd.read_excel] on a missing sheet *)
  | OSError (msg : string)         (* a file that cannot be opened *)
  | OperationalError (msg : string) (* [sqlite3.OperationalError] *)
  | IntegrityError (msg : string). (* [sqlite3.IntegrityError] *)

Inductive result (A : Type) :=
  | Ok (a : A)
  | Raise (e : exn).
Arguments Ok {A} a.
Arguments Raise {A} e.

#[global] Instance result_ret : MRet result := λ A a, Ok a.
#[global] Instance result_bind : MBind result := λ A B f m,
  match m with Ok a => f a | Raise e => Raise e end.

(** Python's short-circuit [a and b]: [b] is evaluated only when [a] is
    true, so an exception in [b] is only raised in that case. *)
Definition py_and (a b : result bool) : result bool :=
  x ← a; if (x : bool) then b else Ok false.

(* ===================================================================== *)
(** * The pandas objects the scripts use *)
(* ===================================================================== *)

(** A spreadsheet cell holding text; [None] is a blank cell, which
    [pd.read_excel] reads as NaN. *)
Definition cell := option string.

(** The three grouping columns [base_keys] / [PRIMARY_KEY]. *)
Record Key := mkKey {
  SerialNumber : cell;
  Ref_Id : cell;
  DefectCode : cell
}.

#[global] Instance Key_eq_dec : EqDecision Key.
Proof. solve_decision. Defined.

(** A row of counts as [DataFrame.apply(..., axis=1)] hands it to its
    callback: the column labels of the unstacked table with the row's
    values.  A label is a [ReworkStatus] value, so it is a cell (a blank
    status gives a NaN label). *)
Definition Series := list (cell * Z).

(** [row[label]]: the value under the first matching label; [KeyError]
    when the label is absent. *)
Fixpoint getitem (row : Series) (label : string) : result Z :=
  match row with
  | [] => Raise (KeyError label)
  | (l, v) :: row' =>
      if decide (l = Some label) then Ok v else getitem row' label
  end.

(** The collapsed table: key columns (after [reset_index]), the labels
    of the count columns, and per row the key and the counts in column
    order. *)
Record Frame := mkFrame {
  columns : list cell;
  rows : list (Key * list Z)
}.


(** The row of [tbl] as a [Series]. *)
Definition as_series (cols : list cell) (vals : list Z) : Series :=
  zip cols vals.

(** [col in tbl]: membership among the column labels, key columns
    included. *)
Definition key_columns : list string := ["SerialNumber"; "Ref_Id"; "DefectCode"].

Definition has_column (tbl : Frame) (col : string) : bool :=
  bool_decide (col ∈ key_columns ∨ Some col ∈ columns tbl).

(** Position of the first column labelled [col]. *)
Fixpoint column_index (cols : list cell) (col : string) : option nat :=
  match cols with
  | [] => None
  | l :: cols' =>
      if decide (l = Some col) then Some 0%nat
      else S <$> column_index cols' col
  end.

(** [tbl[col]] for a count column: the column's values, one per row;
    [KeyError] when no column has that label. *)
Definition get_column (tbl : Frame) (col : string) : result (list Z) :=
  match column_index (columns tbl) col with
  | Some i => Ok (map (λ row, nth i row.2 0) (rows tbl))
  | None => Raise (KeyError col)
  end.

(** [tbl[col] = 0] for a label not yet in the table: a new last column
    of zeros. *)
Definition add_zero_column (tbl : Frame) (col : string) : Frame :=
  {| columns := columns tbl ++ [Some col];
     rows := map (λ row, (row.1, row.2 ++ [0])) (rows tbl) |}.

(** [np.select(condlist, choicelist, default)] at one position: the
    choice of the first condition that holds there. *)
Fixpoint np_select_at {A} (conds : list bool) (choices : list A) (default : A) : A :=
  match conds, choices with
  | c :: conds', x :: choices' =>
      if c then x else np_select_at conds' choices' default
  | _, _ => default
  end.

(** [np.select] over [n] positions; [condlist] holds one boolean column
    per choice. *)
Definition np_select {A} (n : nat) (condlist : list (list bool))
    (choicelist : list A) (default : A) : list A :=
  map (λ i, np_select_at (map (λ c, nth i c false) condlist) choicelist default)
      (seq 0 n).

(* ===================================================================== *)
(** * Collapsing inspection loops: [groupby(...).size().unstack()] *)
(* ===================================================================== *)

(** One raw inspection row: the key, the disposition and the remaining
    (metadata) cells, in the order of the metadata columns. *)
Record RawRow := mkRaw {
  raw_key : Key;
  ReworkStatus : cell;
  raw_meta : list cell
}.

(** The first sheet of an export: the names of the metadata columns
    and the rows. *)
Record RawTable := mkRawTable {
  meta_cols : list string;
  raw_rows : list RawRow
}.

(** Group labels are ordered the way [groupby(sort=True)] orders them:
    text by code point, NaN after every text. *)
Definition cell_compare (a b : cell) : comparison :=
  match a, b with
  | Some x, Some y => String.compare x y
  | Some _, None => Lt
  | None, Some _ => Gt
  | None, None => Eq
  end.

Definition lex (c : comparison) (d : comparison) : comparison :=
  match c with Eq => d | _ => c end.

Definition key_compare (j k : Key) : comparison :=
  lex (cell_compare (SerialNumber j) (SerialNumber k))
   (lex (cell_compare (Ref_Id j) (Ref_Id k))
        (cell_compare (DefectCode j) (DefectCode k))).

Definition group_compare (g h : Key * cell) : comparison :=
  lex (key_compare g.1 h.1) (cell_compare g.2 h.2).

Definition cell_le (a b : cell) : Prop := cell_compare a b ≠ Gt.
Definition group_le (g h : Key * cell) : Prop := group_compare g h ≠ Gt.

#[global] Instance cell_le_dec a b : Decision (cell_le a b).
Proof. unfold cell_le. solve_decision. Defined.
#[global] Instance group_le_dec g h : Decision (group_le g h).
Proof. unfold group_le. solve_decision. Defined.

(** The group a raw row falls in. *)
Definition group_of (r : RawRow) : Key * cell := (raw_key r, ReworkStatus r).

(** Number of raw rows in group [g]. *)
Definition group_size (raw : list RawRow) (g : Key * cell) : Z :=
  Z.of_nat (length (filter (λ r, group_of r = g) raw)).

(** [df.groupby([SerialNumber, Ref_Id, DefectCode, ReworkStatus],
    dropna=False).size()]: one entry per distinct group, NaN labels
    kept, in sorted order, with the number of rows of the group. *)
Definition groupby_size (raw : list RawRow) : list ((Key * cell) * Z) :=
  map (λ g, (g, group_size raw g))
      (merge_sort group_le (remove_dups (map group_of raw))).

(** Value of the sized series at a group, if the group occurs. *)
Fixpoint series_at (s : list ((Key * cell) * Z)) (g : Key * cell) : option Z :=
  match s with
  | [] => None
  | (h, n) :: s' => if decide (h = g) then Some n else series_at s' g
  end.

(** [.unstack(fill_value=...)] followed by [.reset_index()]: the last
    index level becomes the columns (sorted), the other levels the
    rows; a missing combination gets [fill_value]. *)
Definition unstack (fill_value : Z) (s : list ((Key * cell) * Z)) : Frame :=
  let index := remove_dups (map (λ e, e.1.1) s) in
  let cols := merge_sort cell_le (remove_dups (map (λ e, e.1.2) s)) in
  {| columns := cols;
     rows := map (λ k, (k, map (λ c, default fill_value (series_at s (k, c))) cols))
                 index |}.

(** The loop [for col in [...]: if col not in tbl: tbl[col] = 0]. *)
Definition ensure_columns (tbl : Frame) (cols : list string) : Frame :=
  foldl (λ tbl col, if has_column tbl col then tbl else add_zero_column tbl col)
        tbl cols.

(** [df.groupby(base_keys, dropna=False)[meta_cols].first()] at one key:
    per metadata column the first non-blank cell of the group. *)
Definition first_meta (df : RawTable) (k : Key) : list cell :=
  let grp := filter (λ r, raw_key r = k) (raw_rows df) in
  map (λ i, default None (head (filter (λ c, c ≠ None)
                                 (map (λ r, nth i (raw_meta r) None) grp))))
      (seq 0 (length (meta_cols df))).



(** [p in s] for strings. *)
Fixpoint contains (p s : string) : bool :=
  String.prefix p s ||
  match s with
  | EmptyString => false
  | String _ s' => contains p s'
  end.

(** Python's order on [str]: by code point. *)
Definition str_le (a b : string) : Prop := String.compare a b ≠ Gt.

#[global] Instance str_le_dec a b : Decision (str_le a b).
Proof. unfold str_le. solve_decision. Defined.

(** Value under [col] in a row laid out by the column names [cols]
    (as in [dict(zip(cols, vals))[col]] for distinct names). *)
Fixpoint field {A} (cols : list string) (vals : list A) (col : string) : option A :=
  match cols, vals with
  | c :: cols', v :: vals' =>
      if decide (c = col) then Some v else field cols' vals' col
  | _, _ => None
  end.

(* ===================================================================== *)
(** * The command-line entry points *)
(* ===================================================================== *)

(** [sheet_name] of [pd.read_excel]: a position or a name. *)
Inductive sheet :=
  | SheetIndex (n : nat)
  | SheetName (name : string).

(** What [argparse] hands to [aoi_defect_status.main]. *)
Record Namespace := mkNamespace {
  input : option string;
  sheet_arg : string;
  out : string
}.

(** The process environment the two scripts read. *)
Record World := mkWorld {
  argv : list string;                        (* [sys.argv] *)
  parsed_args : Namespace;                   (* [parse_args()] on [sys.argv] *)
  glob : string → list (string * Z);         (* [Path.cwd().glob(pattern)], with [st_mtime] *)
  path_exists : string → bool;               (* [Path.exists()] *)
  resolve : string → string;                 (* [Path.resolve()] *)
  read_excel : string → sheet → result RawTable;
  sheet_names : string → list string         (* [pd.ExcelFile(path).sheet_names] *)
}.

(** The table written by [to_excel]: count columns, metadata columns,
    and per row key, counts, outcome and metadata. *)
Record Report := mkReport {
  count_cols : list cell;
  report_meta_cols : list string;
  report_rows : list (Key * list Z * string * list cell)
}.

(** Observable actions of a run. *)
Inductive event :=
  | Print (text : string)                    (* [print(...)] to stdout *)
  | PrintErr (text : string)                 (* [print(..., file=sys.stderr)] *)
  | PrintValueCounts (Outcome : list string) (* [print(s.value_counts())] *)
  | ReadExcel (path : string) (sh : sheet)
  | ReadSheetNames (path : string)           (* [pd.ExcelFile(path).sheet_names] *)
  | WriteExcel (path : string) (content : Report).

(** How a run ends. *)
Inductive exit :=
  | Returned
  | SysExit (code : Z)
  | Uncaught (e : exn).

Definition run : Type := list event * exit.

(** A script is a trace of events ending in a value or in an exit. *)
Definition io (A : Type) : Type := list event * (A + exit).

#[global] Instance io_ret : MRet io := λ A a, ([], inl a).
#[global] Instance io_bind : MBind io := λ A B f m,
  match m.2 with
  | inl a => let r := f a in (m.1 ++ r.1, r.2)
  | inr x => (m.1, inr x)
  end.

Definition emit (e : event) : io unit := ([e], inl tt).
Definition sys_exit {A} (code : Z) : io A := ([], inr (SysExit code)).
Definition raise {A} (e : exn) : io A := ([], inr (Uncaught e)).
Definition lift {A} (r : result A) : io A :=
  match r with Ok a => mret a | Raise e => raise e end.

(** [pd.read_excel(path, sheet_name=sh)]. *)
Definition io_read_excel (w : World) (path : string) (sh : sheet) : io RawTable :=
  _ ← emit (ReadExcel path sh); lift (read_excel w path sh).

Definition nl : string := String "010"%char "".

(** How Python prints a list of plain strings. *)
Definition repr_list (l : list string) : string :=
  "[" ++ String.concat ", " (map (λ x, "'" ++ x ++ "'")%string l) ++ "]".

(** [sorted(files, key=mtime, reverse=True)]: descending, and stable
    as Python's sort is. *)
Fixpoint insert_desc (x : string * Z) (l : list (string * Z)) : list (string * Z) :=
  match l with
  | [] => [x]
  | y :: l' => if y.2 <=? x.2 then x :: l else y :: insert_desc x l'
  end.

Definition sorted_by_mtime_desc (files : list (string * Z)) : list (string * Z) :=
  foldr insert_desc [] files.

(** [find_latest_rawdata(pattern)], the same in both scripts. *)
Definition find_latest_rawdata (w : World) (pattern : string) : option string :=
  match sorted_by_mtime_desc (glob w pattern) with
  | f :: _ => Some f.1
  | [] => None
  end.

Definition default_pattern : string := "Defect RawData - *.xlsx".


(* ===================================================================== *)
(** * aoi_classify.py *)
(* ===================================================================== *)

Module AoiClassify.

Definition gt0 (x : result Z) : result bool := v ← x; Ok (0 <? v).
Definition eq0 (x : result Z) : result bool := v ← x; Ok (v =? 0).

(** [classify(row)]: one of four outcomes, or the fallback ["None"]. *)
Definition classify (row : Series) : result string :=
  c1 ← gt0 (getitem row "False call");
  if (c1 : bool) then Ok "False" else
  c2 ← py_and (eq0 (getitem row "Reworkable")) (gt0 (getitem row "Overridden"));
  if (c2 : bool) then Ok "Fixed from previously caught" else
  c3 ← py_and (gt0 (getitem row "Reworkable")) (eq0 (getitem row "Overridden"));
  if (c3 : bool) then Ok "Suspect" else
  c4 ← py_and (gt0 (getitem row "Reworkable")) (gt0 (getitem row "Overridden"));
  if (c4 : bool) then Ok "Real" else
  Ok "None".

(** Steps 2) and 3) of [main]: the table [grp]. *)
Definition count_dispositions (df : RawTable) : Frame :=
  let grp := unstack 0 (groupby_size (raw_rows df)) in
  ensure_columns grp ["False call"; "Overridden"; "Reworkable"].

(** Steps 4) to 6) of [main]: [grp.apply(classify, axis=1)], the rows
    labelled ["None"] dropped, the metadata merged back on the key. *)
Definition classify_table (df : RawTable) (grp : Frame) : result Report :=
  Outcome ← mapM (λ row, classify (as_series (columns grp) row.2)) (rows grp);
  let final :=
    filter (λ r, r.2 ≠ "None")
           (zip_with (λ row o, (row.1, row.2, o)) (rows grp) Outcome) in
  Ok {| count_cols := columns grp;
        report_meta_cols := meta_cols df;
        report_rows := map (λ r, (r, first_meta df r.1.1)) final |}.

(** [main(src, dst)]. *)
Definition main (w : World) (src dst : string) : io unit :=
  df ← io_read_excel w src (SheetIndex 0);
  final ← lift (classify_table df (count_dispositions df));
  _ ← emit (WriteExcel dst final);
  _ ← emit (Print ("Written: " ++ resolve w dst));
  _ ← emit (Print (nl ++ "Outcome counts" ++ nl ++ "--------------"));
  emit (PrintValueCounts (map (λ r, r.1.2) (report_rows final))).

(** The [if __name__ == "__main__":] block. *)
Definition entry_point (w : World) : io unit :=
  src_file ←
    (if bool_decide (1 < length (argv w))%nat then
       mret (nth 1 (argv w) "")
     else
       match find_latest_rawdata w default_pattern with
       | Some f => mret f
       | None =>
           _ ← emit (PrintErr ("[ERROR] No AOI export found in current directory. "
                               ++ "Please pass the XLSX as the first argument."));
           sys_exit 1
       end);
  let dst_file :=
    if bool_decide (2 < length (argv w))%nat then nth 2 (argv w) ""
    else "AOI_defect_status.xlsx" in
  main w src_file dst_file.

End AoiClassify.

(* ===================================================================== *)
(** * aoi_defect_status.py *)
(* ===================================================================== *)

(** A table with its [Outcome] column: per row the key, the counts and
    the label. *)
Record Classified := mkClassified {
  ccolumns : list cell;
  crows : list (Key * list Z * string)
}.

Module AoiDefectStatus.

Definition REWORK_STATUS_COLUMNS : list string :=
  ["False call"; "Overridden"; "Reworkable"].

(** [load_data(xlsx_path, sheet_name)]: a [ValueError] is reported on
    stderr with the sheet names and raised again. *)
Definition load_data (w : World) (xlsx_path sheet_name : string) : io RawTable :=
  _ ← emit (ReadExcel xlsx_path (SheetName sheet_name));
  match read_excel w xlsx_path (SheetName sheet_name) with
  | Ok df => mret df
  | Raise (ValueError msg) =>
      _ ← emit (ReadSheetNames xlsx_path);
      _ ← emit (PrintErr ("[ERROR] " ++ msg ++ nl ++ "Available sheets: "
                          ++ repr_list (sheet_names w xlsx_path)));
      raise (ValueError msg)
  | Raise e => raise e
  end.

(** [collapse_loops(df)]. *)
Definition collapse_loops (df : RawTable) : Frame :=
  let tbl := unstack 0 (groupby_size (raw_rows df)) in
  ensure_columns tbl REWORK_STATUS_COLUMNS.

(** [assign_outcome(tbl)]: the [Outcome] column is computed with
    [np.select], then the rows labelled ["None"] are dropped. *)
Definition assign_outcome (tbl : Frame) : result Classified :=
  fc ← get_column tbl "False call";
  ov ← get_column tbl "Overridden";
  rw ← get_column tbl "Reworkable";
  let gt := map (λ v, 0 <? v) in
  let Outcome :=
    np_select (length (rows tbl)) [gt fc; gt ov; gt rw]
              ["False"; "Real"; "Suspect"] "None" in
  Ok {| ccolumns := columns tbl;
        crows := filter (λ r, r.2 ≠ "None")
                   (zip_with (λ row o, (row.1, row.2, o)) (rows tbl) Outcome) |}.

Definition to_report (status : Classified) : Report :=
  {| count_cols := ccolumns status;
     report_meta_cols := [];
     report_rows := map (λ r, (r, [])) (crows status) |}.

(** [main()], after [parse_args()]. *)
Definition main (w : World) : io unit :=
  let args := parsed_args w in
  let input_path :=
    match input args with
    | Some p => if decide (p = "") then find_latest_rawdata w default_pattern
                else Some p
    | None => find_latest_rawdata w default_pattern
    end in
  input_path ←
    match input_path with
    | Some p =>
        if path_exists w p then mret p
        else
          _ ← emit (PrintErr "[ERROR] No input file provided and none matching pattern found.");
          sys_exit 1
    | None =>
        _ ← emit (PrintErr "[ERROR] No input file provided and none matching pattern found.");
        sys_exit 1
    end;
  _ ← emit (Print ("[INFO] Loading '" ++ input_path ++ "' (sheet='"
                   ++ sheet_arg args ++ "')…"));
  raw ← load_data w input_path (sheet_arg args);
  let collapsed := collapse_loops raw in
  status ← lift (assign_outcome collapsed);
  _ ← emit (Print ("[INFO] Outcome distribution:" ++ nl));
  _ ← emit (PrintValueCounts (map snd (crows status)));
  _ ← emit (WriteExcel (out args) (to_report status));
  emit (Print ("[INFO] Saved result to '" ++ out args ++ "'.")).

End AoiDefectStatus.

(* ===================================================================== *)
(** * ingest_to_db.py *)
(* ===================================================================== *)

(** A Python value in a cell of [df.values.tolist()]. *)
Inductive pyval :=
  | PyNaN                  (* [float('nan')], a blank cell *)
  | PyStr (s : string)
  | PyInt (z : Z).

(** A value stored in SQLite. *)
Inductive sqlval :=
  | Null
  | Text (s : string)
  | Num (z : Z).

#[global] Instance sqlval_eq_dec : EqDecision sqlval.
Proof. solve_decision. Defined.

(** The frame handed to [ensure_table] and [upsert_df]: column names
    and [df.values.tolist()]. *)
Record DataFrame := mkDataFrame {
  df_columns : list string;
  df_values : list (list pyval)
}.

(** The [defects] table: its columns in declaration order, and its
    rows in rowid order, one value per column. *)
Record Table := mkTable {
  tcolumns : list string;
  trows : list (list sqlval)
}.

Module IngestToDb.

Definition PRIMARY_KEY : list string := ["SerialNumber"; "Ref_Id"; "DefectCode"].

Definition of_cell (c : cell) : pyval :=
  match c with Some s => PyStr s | None => PyNaN end.

(** Column name of a count column: an f-string shows a NaN label as
    [nan]. *)
Definition label_name (c : cell) : string := default "nan" c.

(** The frame [process_file] returns: key columns, count columns,
    [Outcome], metadata columns. *)
Definition to_frame (final : Report) : DataFrame :=
  {| df_columns := key_columns ++ map label_name (count_cols final)
                   ++ ["Outcome"] ++ report_meta_cols final;
     df_values :=
       map (λ r, let '(k, counts, outcome, meta) := r in
                 [of_cell (SerialNumber k); of_cell (Ref_Id k); of_cell (DefectCode k)]
                 ++ map PyInt counts ++ [PyStr outcome] ++ map of_cell meta)
           (report_rows final) |}.

(** [process_file(path)]: read the first sheet, collapse, classify. *)
Definition process_file (w : World) (path : string) : result DataFrame :=
  df ← read_excel w path (SheetIndex 0);
  let grp := ensure_columns (unstack 0 (groupby_size (raw_rows df)))
               ["False call"; "Overridden"; "Reworkable"] in
  final ← AoiClassify.classify_table df grp;
  Ok (to_frame final).

(** [ensure_table(conn, df)]: [CREATE TABLE IF NOT EXISTS defects (...,
    PRIMARY KEY (SerialNumber, Ref_Id, DefectCode))], then [ALTER
    TABLE ... ADD COLUMN] for every column of [df] the table lacks. *)
Definition ensure_table (conn : option Table) (df : DataFrame) : Table :=
  let t :=
    match conn with
    | Some t => t
    | None =>
        {| tcolumns := PRIMARY_KEY
                       ++ filter (λ c, c ∉ PRIMARY_KEY) (df_columns df);
           trows := [] |}
    end in
  foldl (λ t col,
           if bool_decide (col ∈ tcolumns t) then t
           else {| tcolumns := tcolumns t ++ [col];
                   trows := map (λ r, r ++ [Null]) (trows t) |})
        t (df_columns df).

(** How the [sqlite3] module binds a parameter: NaN becomes NULL. *)
Definition bind_param (v : pyval) : sqlval :=
  match v with
  | PyNaN => Null
  | PyStr s => Text s
  | PyInt z => Num z
  end.

(** The primary-key values of a row stored under the columns [tcols]. *)
Definition pk_of (tcols : list string) (r : list sqlval) : list sqlval :=
  map (λ col, default Null (field tcols r col)) PRIMARY_KEY.

(** Two rows collide on the primary key when their key values are
    equal and none of them is NULL: SQLite lets NULL into the primary
    key of an ordinary rowid table, and for a uniqueness constraint
    every NULL is distinct from every other value, NULL included. *)
Definition pk_conflict (tcols : list string) (r r' : list sqlval) : bool :=
  bool_decide (pk_of tcols r = pk_of tcols r' ∧ Null ∉ pk_of tcols r).

(** The row an [INSERT ... (cols) VALUES (vals)] stores: columns not
    listed get NULL. *)
Definition stored_row (tcols cols : list string) (vals : list sqlval) : list sqlval :=
  map (λ col, default Null (field cols vals col)) tcols.

(** [INSERT OR REPLACE] of the row [r]: the rows colliding with it are
    deleted, then it is stored with a new rowid. *)
Definition replace_row (tcols : list string) (rows : list (list sqlval))
    (r : list sqlval) : list (list sqlval) :=
  filter (λ r', pk_conflict tcols r r' = false) rows ++ [r].

(** [INSERT OR REPLACE INTO defects (cols) VALUES (vals)]. *)
Definition insert_or_replace (t : Table) (cols : list string)
    (vals : list sqlval) : result Table :=
  match filter (λ c, c ∉ tcolumns t) cols with
  | c :: _ => Raise (OperationalError ("table defects has no column named " ++ c))
  | [] =>
      Ok {| tcolumns := tcolumns t;
            trows := replace_row (tcolumns t) (trows t)
                       (stored_row (tcolumns t) cols vals) |}
  end.

(** [executemany(sql, rows)]. *)
Fixpoint executemany (t : Table) (cols : list string)
    (rows : list (list sqlval)) : result Table :=
  match rows with
  | [] => Ok t
  | vals :: rows' => t' ← insert_or_replace t cols vals; executemany t' cols rows'
  end.

(** [upsert_df(conn, df)]; without the table the statement fails. *)
Definition upsert_df (conn : option Table) (df : DataFrame) : result Table :=
  match conn with
  | None => Raise (OperationalError "no such table: defects")
  | Some t =>
      executemany t (df_columns df) (map (map bind_param) (df_values df))
  end.

(** One pass of the loop in [main]: a file is processed, the table
    ensured, the frame upserted. *)
Definition ingest_file (w : World) (conn : option Table) (p : string)
    : result Table :=
  df ← process_file w p;
  upsert_df (Some (ensure_table conn df)) df.

(** [Path(p).name]: the text after the last [/]. *)
Fixpoint basename (p : string) : string :=
  match p with
  | EmptyString => EmptyString
  | String c p' =>
      if contains "/" p then basename p' else p
  end.

Definition DATA_PATTERN : string := "Defect RawData - *.xlsx".

(** [find_xlsx_files(pattern)]: the matching files sorted by path. *)
Definition find_xlsx_files (w : World) (pattern : string) : list string :=
  merge_sort str_le (map fst (glob w pattern)).

(** The loop of [main] over the files: each one is announced, read,
    processed and upserted; the first exception ends the run and keeps
    what was committed before. *)
Fixpoint ingest_loop (w : World) (conn : option Table) (paths : list string)
    : option Table * io unit :=
  match paths with
  | [] => (conn, mret tt)
  | p :: paths' =>
      let announce :=
        _ ← emit (Print ("  → " ++ basename p));
        emit (ReadExcel p (SheetIndex 0)) in
      match process_file w p with
      | Raise e => (conn, _ ← announce; raise e)
      | Ok df =>
          let t := ensure_table conn df in
          match upsert_df (Some t) df with
          | Raise e => (Some t, _ ← announce; raise e)
          | Ok t' =>
              let r := ingest_loop w (Some t') paths' in
              (r.1, _ ← announce; r.2)
          end
      end
  end.

(** [main(paths)]: the table afterwards and the run. *)
Definition main (w : World) (conn : option Table) (paths : list string)
    : option Table * io unit :=
  let paths := match paths with
               | [] => find_xlsx_files w DATA_PATTERN
               | _ => paths
               end in
  match paths with
  | [] => (conn, emit (Print "[WARN] No Excel files found to process."))
  | _ =>
      let r := ingest_loop w conn paths in
      (r.1,
       _ ← emit (Print ("[INFO] Processing " ++ pretty (Z.of_nat (length paths))
                        ++ " file(s)…"));
       _ ← r.2;
       emit (Print ("[DONE] Database updated: " ++ resolve w "aoi_defects.db")))
  end.

End IngestToDb.

(* ===================================================================== *)
(** * pages/action_tracker.py *)
(* ===================================================================== *)

(** A Python value in an issue form or read back from SQLite.  Floats
    and other objects (dates, ...) are only ever passed to [str()], so
    they are carried as what [str()] shows. *)
Inductive value :=
  | VNone
  | VStr (s : string)
  | VInt (z : Z)
  | VBool (b : bool)
  | VFloat (shown : string)
  | VObj (shown : string).

#[global] Instance value_eq_dec : EqDecision value.
Proof. solve_decision. Defined.

(** A row of [issue_changelog]. *)
Record Entry := mkEntry {
  entry_id : Z;
  entry_issue_id : value;
  field_name : string;
  old_value : string;
  new_value : string;
  changed_by : string;
  changed_at : string
}.

(** [issue_changelog], with the largest id [AUTOINCREMENT] has given out. *)
Record Changelog := mkChangelog {
  entries : list Entry;
  changelog_seq : Z
}.

(** [issues]: columns in declaration order, rows with one value per
    column, and the [AUTOINCREMENT] counter. *)
Record Issues := mkIssues {
  icolumns : list string;
  irows : list (list value);
  issues_seq : Z
}.

(** The database file [aoi_defects.db]. *)
Record Db := mkDb {
  defects : option Table;
  issues : option Issues;
  issue_changelog : option Changelog
}.

(** The rows of the change log; none while the table does not exist. *)
Definition changelog_rows (conn : Db) : list Entry :=
  match issue_changelog conn with Some c => entries c | None => [] end.

(** The [defects] table as [pd.read_sql] loads it: named columns of
    text cells, all of the same length. *)
Definition DefectsFrame := list (string * list cell).

Module ActionTracker.

Definition py_str (v : value) : string :=
  match v with
  | VNone => "None"
  | VStr s => s
  | VInt z => pretty z
  | VBool true => "True"
  | VBool false => "False"
  | VFloat shown => shown
  | VObj shown => shown
  end.

Definition truthy (v : value) : bool :=
  match v with
  | VNone => false
  | VStr s => bool_decide (s ≠ "")
  | VInt z => bool_decide (z ≠ 0)
  | VBool b => b
  | VFloat shown => bool_decide (shown ∉ ["0.0"; "-0.0"])
  | VObj _ => true
  end.

(* ------------------------------------------------------------------- *)
(** ** Outcome tallies *)

Section Tally.

(** [pd.to_datetime(col, errors="coerce")] read through [.dt.date]:
    day numbers, [None] for NaT. *)
Variable to_datetime : list cell → result (list (option Z)).

Definition nrows (df : DefectsFrame) : nat :=
  match df with [] => 0%nat | (_, vs) :: _ => length vs end.

(** [df.empty]: no column or no row. *)
Definition empty (df : DefectsFrame) : bool := bool_decide (nrows df = 0%nat).

Definition column (df : DefectsFrame) (name : string) : list cell :=
  default [] (field (map fst df) (map snd df) name).

(** [df[mask]]. *)
Definition select_rows {A} (mask : list bool) (vs : list A) : list A :=
  map snd (filter (λ p, p.1 = true) (zip mask vs)).

Definition boolean_index (df : DefectsFrame) (mask : list bool) : DefectsFrame :=
  map (λ c, (c.1, select_rows mask c.2)) df.





End Tally.

(* ------------------------------------------------------------------- *)
(** ** Issues and their change log *)

(** The calls that reach the database file: the helpers of this page,
    the two queries of the page (the issue list and the history
    view), and an ingestion run on [defects]. *)
Inductive op :=
  | EnsureIssuesTable
  | EnsureChangelogTable
  | LogChange (issue_id : value) (field_name : string)
              (old_value new_value : value) (changed_by : string)
  | SaveIssue (data : list (string * value))
  | LoadIssues
  | ViewHistory (issue_id : value)
  | Ingest (df : DataFrame).

Section Database.

(** What SQLite and the clock contribute to a call. *)
Variable now : string.                       (* [CURRENT_TIMESTAMP] *)
Variable affinity : string → value → value.  (* the value a column keeps when one is stored in it *)
Variable id_of : value → option Z.           (* the integer a parameter of [WHERE id = ?] stands for *)

(** The columns of [CREATE TABLE issues], in order. *)
Definition issue_columns : list string :=
  ["id"; "date_reported"; "line_name"; "shift"; "serial_number";
   "component_pn"; "ref_id"; "issue_category"; "issue_type"; "description";
   "what_issue"; "where_occurred"; "why_preliminary"; "when_happened";
   "who_detected"; "how_detected"; "how_much_impact";
   "short_term_fix"; "long_term_action"; "responsible_person"; "due_date";
   "status";
   "rca_completed"; "rca_method"; "root_cause_final"; "effectiveness_check";
   "disposition"; "rework_time_mins"; "rework_cost";
   "aoi_false"; "aoi_real"; "aoi_fixed"; "aoi_suspect";
   "created_at"; "updated_at"].

Definition aoi_columns : list string :=
  ["aoi_false"; "aoi_real"; "aoi_fixed"; "aoi_suspect"].

(** The [DEFAULT] of a column. *)
Definition column_default (col : string) : value :=
  if bool_decide (col ∈ ["rca_completed"; "effectiveness_check"] ++ aoi_columns)
  then VInt 0
  else if bool_decide (col ∈ ["created_at"; "updated_at"]) then VStr now
  else VNone.

(** [ensure_issues_table(conn)]. *)
Definition ensure_issues_table (conn : Db) : Db :=
  let t := default (mkIssues issue_columns [] 0) (issues conn) in
  let t :=
    foldl (λ t col,
             if bool_decide (col ∈ icolumns t) then t
             else {| icolumns := icolumns t ++ [col];
                     irows := map (λ r, r ++ [VInt 0]) (irows t);
                     issues_seq := issues_seq t |})
          t aoi_columns in
  {| defects := defects conn; issues := Some t;
     issue_changelog := issue_changelog conn |}.

(** [ensure_changelog_table(conn)]. *)
Definition ensure_changelog_table (conn : Db) : Db :=
  {| defects := defects conn; issues := issues conn;
     issue_changelog := Some (default (mkChangelog [] 0) (issue_changelog conn)) |}.

(** [log_change(conn, issue_id, field_name, old_value, new_value,
    changed_by)]: one [INSERT INTO issue_changelog]. *)
Definition log_change (conn : Db) (issue_id : value) (field_name : string)
    (old_value new_value : value) (changed_by : string) : Db :=
  let conn := ensure_changelog_table conn in
  let c := default (mkChangelog [] 0) (issue_changelog conn) in
  let e := {| entry_id := changelog_seq c + 1;
              entry_issue_id := affinity "issue_id" issue_id;
              field_name := field_name;
              old_value := py_str old_value;
              new_value := py_str new_value;
              changed_by := changed_by;
              changed_at := now |} in
  {| defects := defects conn; issues := issues conn;
     issue_changelog :=
       Some {| entries := entries c ++ [e]; changelog_seq := changelog_seq c + 1 |} |}.

(** The cleaning loop of [save_issue]. *)
Definition clean (v : value) : value :=
  match v with
  | VNone => VStr ""
  | VInt _ | VBool _ | VFloat _ => v
  | VStr _ | VObj _ => VStr (py_str v)
  end.

(** [d[key]] in a dict given by its items. *)
Definition dict_get (d : list (string * value)) (key : string) : option value :=
  field (map fst d) (map snd d) key.

(** [SELECT * FROM issues WHERE id = ?] then [fetchone()]. *)
Definition id_matches (t : Issues) (issue_id : value) (r : list value) : bool :=
  match field (icolumns t) r "id", id_of issue_id with
  | Some (VInt n), Some m => bool_decide (n = m)
  | _, _ => false
  end.

Definition select_issue (t : Issues) (issue_id : value) : option (list value) :=
  head (filter (λ r, id_matches t issue_id r = true) (irows t)).

(** The loop comparing the stored row with the new values and logging
    every difference. *)
Definition log_differences (conn : Db) (t : Issues) (existing : list value)
    (issue_id : value) (clean_data : list (string * value)) : Db :=
  foldl (λ conn item,
           let '(key, new_value) := item in
           if bool_decide (key ≠ "id") then
             match field (icolumns t) existing key with
             | Some old_value =>
                 if bool_decide (py_str old_value ≠ py_str new_value)
                 then log_change conn issue_id key old_value new_value "System"
                 else conn
             | None => conn
             end
           else conn)
        conn clean_data.

(** Columns named in a statement that the table lacks. *)
Definition unknown_columns (t : Issues) (cols : list string) : list string :=
  filter (λ c, c ∉ icolumns t) cols.

(** Storing [v] under [col] in a row. *)
Fixpoint set_field (cols : list string) (row : list value) (col : string)
    (v : value) : list value :=
  match cols, row with
  | c :: cols', x :: row' =>
      if decide (c = col) then v :: row' else x :: set_field cols' row' col v
  | _, _ => row
  end.

(** [UPDATE issues SET col = ?, ..., updated_at = CURRENT_TIMESTAMP
    WHERE id = ?]. *)
Definition update_issue (t : Issues) (sets : list (string * value))
    (issue_id : value) : result Issues :=
  match sets, unknown_columns t (map fst sets ++ ["updated_at"]) with
  | [], _ => Raise (OperationalError "near ',': syntax error")
  | _, c :: _ => Raise (OperationalError ("no such column: " ++ c))
  | _, [] =>
      let assign row :=
        set_field (icolumns t)
          (foldl (λ row s, set_field (icolumns t) row s.1 (affinity s.1 s.2)) row sets)
          "updated_at" (VStr now) in
      Ok {| icolumns := icolumns t;
            irows := map (λ r, if id_matches t issue_id r then assign r else r)
                         (irows t);
            issues_seq := issues_seq t |}
  end.

(** [INSERT INTO issues (cols) VALUES (...)]: the new row and its id. *)
Definition insert_issue (t : Issues) (vals : list (string * value))
    : result (Issues * Z) :=
  match vals, unknown_columns t (map fst vals) with
  | [], _ => Raise (OperationalError "near ')': syntax error")
  | _, c :: _ =>
      Raise (OperationalError ("table issues has no column named " ++ c))
  | _, [] =>
      if bool_decide ("date_reported" ∈ map fst vals) then
        let id := issues_seq t + 1 in
        let row :=
          map (λ col, if decide (col = "id") then VInt id
                      else match dict_get vals col with
                           | Some v => affinity col v
                           | None => column_default col
                           end) (icolumns t) in
        Ok ({| icolumns := icolumns t; irows := irows t ++ [row];
               issues_seq := id |}, id)
      else Raise (IntegrityError "NOT NULL constraint failed: issues.date_reported")
  end.

Definition with_issues (conn : Db) (t : Issues) : Db :=
  {| defects := defects conn; issues := Some t;
     issue_changelog := issue_changelog conn |}.

(** [save_issue(conn, data)]: the database after the call and what
    the call returns or raises. *)
Definition save_issue (conn : Db) (data : list (string * value))
    : Db * result value :=
  let conn := ensure_issues_table conn in
  let conn := ensure_changelog_table conn in
  let t := default (mkIssues issue_columns [] 0) (issues conn) in
  let clean_data := map (λ item, (item.1, clean item.2)) data in
  let cols := filter (λ item, item.1 ≠ "id") clean_data in
  match dict_get clean_data "id" with
  | Some issue_id =>
      if truthy issue_id then
        (* update existing, tracking the changes *)
        let conn :=
          match select_issue t issue_id with
          | Some existing => log_differences conn t existing issue_id clean_data
          | None => conn
          end in
        match update_issue t cols issue_id with
        | Ok t' => (with_issues conn t', Ok issue_id)
        | Raise e => (conn, Raise e)
        end
      else
        match insert_issue t cols with
        | Ok (t', id) =>
            (log_change (with_issues conn t') (VInt id) "status"
                        (VStr "") (VStr "Created") "System", Ok (VInt id))
        | Raise e => (conn, Raise e)
        end
  | None =>
      match insert_issue t cols with
      | Ok (t', id) =>
          (log_change (with_issues conn t') (VInt id) "status"
                      (VStr "") (VStr "Created") "System", Ok (VInt id))
      | Raise e => (conn, Raise e)
      end
  end.

(** The history view: [SELECT ... FROM issue_changelog WHERE issue_id
    = ? ORDER BY changed_at DESC] (the order is not modelled). *)
Definition history (conn : Db) (issue_id : value) : list Entry :=
  filter (λ e, entry_issue_id e = affinity "issue_id" issue_id)
         (changelog_rows conn).

(** The database after one call; a call that raises keeps what it
    committed before. *)
Definition step (conn : Db) (o : op) : Db :=
  match o with
  | EnsureIssuesTable => ensure_issues_table conn
  | EnsureChangelogTable => ensure_changelog_table conn
  | LogChange issue_id field_name old_value new_value changed_by =>
      log_change conn issue_id field_name old_value new_value changed_by
  | SaveIssue data => (save_issue conn data).1
  | LoadIssues => ensure_issues_table conn
  | ViewHistory _ => ensure_changelog_table conn
  | Ingest df =>
      let t := IngestToDb.ensure_table (defects conn) df in
      {| defects := Some (match IngestToDb.upsert_df (Some t) df with
                          | Ok t' => t'
                          | Raise _ => t
                          end);
         issues := issues conn;
         issue_changelog := issue_changelog conn |}
  end.

End Database.

(* ------------------------------------------------------------------- *)
(** ** Slicing the defects frame *)

(** [df[name]]: the column, [KeyError] when the frame has none of that
    name. *)
Definition get_col (df : DefectsFrame) (name : string) : result (list cell) :=
  match field (map fst df) (map snd df) name with
  | Some vs => Ok vs
  | None => Raise (KeyError name)
  end.

(** [s.isin(sel)] at one cell, for a selection of texts. *)
Definition isin (sel : list string) (c : cell) : bool :=
  match c with
  | Some x => bool_decide (x ∈ sel)
  | None => false
  end.

(** [s.between(start, end)] at one date; NaT is never in range. *)
Definition between (start end_ : Z) (d : option Z) : bool :=
  match d with
  | Some x => (start <=? x) && (x <=? end_)
  | None => false
  end.

(** [out[out[col].isin(sel)]] when the filter is on and something is
    selected, [out] otherwise. *)
Definition isin_filter (on : bool) (col : string) (sel : list string)
    (out : DefectsFrame) : result DefectsFrame :=
  if on && bool_decide (sel ≠ []) then
    vs ← get_col out col; Ok (boolean_index out (map (isin sel) vs))
  else Ok out.

Section Slicing.

(** The calendar date of an [EventDate] cell as [load_defects] left it
    ([.dt.date]); [None] for NaT. *)
Variable date_of : cell → option Z.

(** [slice_defects(df, start, end, machines, parts, weeks,
    enable_filters)]. *)
Definition slice_defects (df : DefectsFrame) (start end_ : Z)
    (machines parts weeks : list string) (enable_filters : bool)
    : result DefectsFrame :=
  if empty df then Ok df
  else
    dates ← get_col df "EventDate";
    let out := boolean_index df (map (λ c, between start end_ (date_of c)) dates) in
    out ← isin_filter enable_filters "MachineName" machines out;
    out ← isin_filter enable_filters "PartNumber" parts out;
    out ← isin_filter enable_filters "ISO_Week" weeks out;
    Ok out.

End Slicing.

End ActionTracker.

(* ===================================================================== *)
(** * app.py: the cached helpers of the dashboard *)
(* ===================================================================== *)

Module App.

(** [get_unique_values(df, column)]. *)
Definition get_unique_values (df : DefectsFrame) (col : string) : list string :=
  if bool_decide (col ∈ map fst df) then
    merge_sort str_le (remove_dups (omap id (ActionTracker.column df col)))
  else [].

Section Filters.

(** The instant of a cell of the date-time column, [None] for NaT. *)
Variable instant_of : cell → option Z.

(** [mask &= column.isin(sel)] and the like. *)
Definition and_mask (mask other : list bool) : list bool := zip_with andb mask other.

(** The loop over [filters.items()]: columns with an empty selection
    are skipped. *)
Fixpoint column_filters (df : DefectsFrame) (mask : list bool)
    (filters : list (string * list string)) : result (list bool) :=
  match filters with
  | [] => Ok mask
  | (col, sel) :: filters' =>
      if bool_decide (sel ≠ []) then
        vs ← ActionTracker.get_col df col;
        column_filters df (and_mask mask (map (ActionTracker.isin sel) vs)) filters'
      else column_filters df mask filters'
  end.

(** [apply_filters_cached(df, filter_hash, filters, datetime_col,
    start_dt, end_dt, outcome_sel)]; the hash only keys the cache. *)
Definition apply_filters_cached (df : DefectsFrame)
    (filters : list (string * list string))
    (datetime_col : option string) (start_dt end_dt : option Z)
    (outcome_sel : list string) : result DefectsFrame :=
  let mask := replicate (ActionTracker.nrows df) true in
  mask ← (if bool_decide (outcome_sel ≠ []) then
            vs ← ActionTracker.get_col df "Outcome";
            Ok (and_mask mask (map (ActionTracker.isin outcome_sel) vs))
          else Ok mask);
  mask ← column_filters df mask filters;
  mask ← match datetime_col, start_dt, end_dt with
         | Some col, Some a, Some b =>
             if decide (col = "") then Ok mask
             else
               vs ← ActionTracker.get_col df col;
               Ok (and_mask mask (map (λ c, ActionTracker.between a b (instant_of c)) vs))
         | _, _, _ => Ok mask
         end;
  Ok (ActionTracker.boolean_index df mask).

End Filters.

End App.

(* ===================================================================== *)
(** * Vocabulary of the statements *)
(* ===================================================================== *)

(** A row whose three disposition counts are [f], [o] and [r]. *)
Definition row_counts (row : Series) (f o r : Z) : Prop :=
  getitem row "False call" = Ok f ∧
  getitem row "Overridden" = Ok o ∧
  getitem row "Reworkable" = Ok r.

(** The 3-way rule in the words of the specification: False, else
    Real, else Suspect, first match wins. *)
Definition spec_three_way_rule (f o r : Z) : string :=
  if 0 <? f then "False"
  else if 0 <? o then "Real"
  else if 0 <? r then "Suspect"
  else "None".

(** The table has the three disposition columns. *)
Definition has_disposition_columns (tbl : Frame) : Prop :=
  Forall (λ col, Some col ∈ columns tbl) AoiDefectStatus.REWORK_STATUS_COLUMNS.

(** The count a row holds under [col]; 0 stands in when there is no
    such column. *)
Definition count_at (cols : list cell) (vals : list Z) (col : string) : Z :=
  match column_index cols col with
  | Some i => nth i vals 0
  | None => 0
  end.

(** The label [assign_outcome] gives the row [(k, vals)] of [tbl]. *)
Definition assigned (tbl : Frame) (k : Key) (vals : list Z) (outcome : string) : Prop :=
  ∃ status, AoiDefectStatus.assign_outcome tbl = Ok status ∧
            (k, vals, outcome) ∈ crows status.




(** The largest change-log id given out so far. *)
Definition changelog_last_id (conn : Db) : Z :=
  match issue_changelog conn with Some c => changelog_seq c | None => 0 end.

(** The fields of an update that differ from the stored row, with the
    stored and the new value: the key is not [id], the row has the
    column, and the two values differ as strings. *)
Definition changed_fields (cols : list string) (existing : list value)
    (clean_data : list (string * value)) : list (string * value * value) :=
  omap (λ item,
          if bool_decide (item.1 ≠ "id") then
            match field cols existing item.1 with
            | Some old =>
                if bool_decide (ActionTracker.py_str old ≠ ActionTracker.py_str item.2)
                then Some (item.1, old, item.2) else None
            | None => None
            end
          else None) clean_data.

(** The change-log rows recording [changes] for [issue_id], numbered
    after [last]. *)
Fixpoint entries_for (now : string) (affinity : string → value → value)
    (last : Z) (issue_id : value)
    (changes : list (string * value * value)) : list Entry :=
  match changes with
  | [] => []
  | (key, old, new) :: rest =>
      {| entry_id := last + 1;
         entry_issue_id := affinity "issue_id" issue_id;
         field_name := key;
         old_value := ActionTracker.py_str old;
         new_value := ActionTracker.py_str new;
         changed_by := "System";
         changed_at := now |} :: entries_for now affinity (last + 1) issue_id rest
  end.


(** A key free of NULL. *)
Definition keyed (tcols : list string) (r : list sqlval) : Prop :=
  Null ∉ IngestToDb.pk_of tcols r.

(** No stored row collides with one of [rs]. *)
Definition survives (tcols : list string) (rs : list (list sqlval))
    (x : list sqlval) : Prop :=
  Forall (λ r, IngestToDb.pk_conflict tcols r x = false) rs.

#[global] Instance survives_dec tcols rs x : Decision (survives tcols rs x).
Proof. unfold survives. apply _. Defined.


(** The rows [upsert_df] stores for [df] in a table with columns
    [tcols]. *)
Definition upsert_rows (tcols : list string) (df : DataFrame) : list (list sqlval) :=
  map (IngestToDb.stored_row tcols (df_columns df))
      (map (map IngestToDb.bind_param) (df_values df)).


(** The head of a list of files is a newest one. *)
Definition newest_first (l : list (string * Z)) : Prop :=
  match l with
  | [] => True
  | y :: _ => ∀ z, z ∈ l → z.2 ≤ y.2
  end.





(** The change log is numbered 1, 2, 3, ... in storage order, and the
    counter of [AUTOINCREMENT] stands at its last id. *)
Definition log_numbered (conn : Db) : Prop :=
  changelog_last_id conn = Z.of_nat (length (changelog_rows conn)) ∧
  map entry_id (changelog_rows conn)
  = seqZ 1 (Z.of_nat (length (changelog_rows conn))).

(* ===================================================================== *)
(** * Sample inputs *)
(* ===================================================================== *)

(** A collapsed table with one row per branch of the rules. *)
Definition sample_frame : Frame :=
  {| columns := [Some "False call"; Some "Overridden"; Some "Reworkable"];
     rows := [ (mkKey (Some "SN1") (Some "C12") (Some "Tombstone"), [1; 2; 0]);
               (mkKey (Some "SN1") (Some "R7") (Some "Bridge"), [0; 3; 0]);
               (mkKey (Some "SN2") (Some "R7") (Some "Bridge"), [0; 0; 2]);
               (mkKey (Some "SN3") (Some "U1") (Some "Missing"), [0; 0; 0]) ] |}.

(** Four inspection rows over two pads. *)
Definition sample_raw : RawTable :=
  {| meta_cols := ["PartNumber"];
     raw_rows :=
       [ mkRaw (mkKey (Some "SN1") (Some "R7") (Some "Bridge")) (Some "Reworkable") [Some "P-100"];
         mkRaw (mkKey (Some "SN1") (Some "R7") (Some "Bridge")) (Some "Overridden") [Some "P-100"];
         mkRaw (mkKey (Some "SN1") (Some "C3") (Some "Missing")) (Some "Reworkable") [Some "P-100"];
         mkRaw (mkKey (Some "SN1") (Some "R7") (Some "Bridge")) (Some "Reworkable") [Some "P-100"] ] |}.

(** A run without arguments in a directory without exports. *)
Definition empty_dir_world : World :=
  {| argv := ["aoi_classify.py"];
     parsed_args := {| input := None; sheet_arg := "Defects";
                       out := "AOI_defect_status.xlsx" |};
     glob := λ _, [];
     path_exists := λ _, false;
     resolve := λ p, p;
     read_excel := λ p _, Raise (OSError p);
     sheet_names := λ _, [] |}.

(** [WHERE id = ?] with an integer parameter. *)
Definition sample_id_of (v : value) : option Z :=
  match v with VInt z => Some z | _ => None end.

(** The database after one issue has been created. *)
Definition sample_db : Db :=
  (ActionTracker.save_issue "2025-07-26 15:10:30" (λ _ v, v) sample_id_of
     {| defects := None; issues := None; issue_changelog := None |}
     [("date_reported", VStr "2025-07-26"); ("status", VStr "Open");
      ("line_name", VStr "L2")]).1.

(** An edit of that issue: the status changes, the line is cleared,
    the date stays. *)
Definition sample_update : list (string * value) :=
  [("id", VInt 1); ("date_reported", VStr "2025-07-26");
   ("status", VStr "Closed"); ("line_name", VNone)].

(** An export with one inspection row whose Ref_Id cell is blank. *)
Definition blank_ref_raw : RawTable :=
  {| meta_cols := ["PartNumber"];
     raw_rows :=
       [ mkRaw (mkKey (Some "SN1") None (Some "Bridge")) (Some "Reworkable")
               [Some "P-100"] ] |}.

(** A directory holding that export. *)
Definition blank_ref_world : World :=
  {| argv := ["ingest_to_db.py"; "Defect RawData - 1.xlsx"];
     parsed_args := {| input := None; sheet_arg := "Defects";
                       out := "AOI_defect_status.xlsx" |};
     glob := λ _, [("Defect RawData - 1.xlsx", 0)];
     path_exists := λ _, true;
     resolve := λ p, p;
     read_excel := λ _ _, Ok blank_ref_raw;
     sheet_names := λ _, ["Sheet1"] |}.


(** A world listing three exports. *)
Definition three_exports_world : World :=
  {| argv := ["aoi_classify.py"];
     parsed_args := {| input := None; sheet_arg := "Defects";
                       out := "AOI_defect_status.xlsx" |};
     glob := λ _, [("Defect RawData - a.xlsx", 10); ("Defect RawData - b.xlsx", 30);
                   ("Defect RawData - c.xlsx", 30)];
     path_exists := λ _, true;
     resolve := λ p, p;
     read_excel := λ _ _, Ok sample_raw;
     sheet_names := λ _, ["Defects"] |}.

(** A table with one stored pad. *)
Definition one_pad_table : Table :=
  {| tcolumns := ["SerialNumber"; "Ref_Id"; "DefectCode"; "Outcome"];
     trows := [[Text "SN0"; Text "C1"; Text "Missing"; Text "Suspect"]] |}.

(** A frame with two pads, the first given twice. *)
Definition two_pads_frame : DataFrame :=
  {| df_columns := ["SerialNumber"; "Ref_Id"; "DefectCode"; "Outcome"];
     df_values := [[PyStr "SN1"; PyStr "R7"; PyStr "Bridge"; PyStr "Suspect"];
                   [PyStr "SN2"; PyStr "R7"; PyStr "Bridge"; PyStr "False"];
                   [PyStr "SN1"; PyStr "R7"; PyStr "Bridge"; PyStr "Real"]] |}.

(* ===================================================================== *)
(** * Properties of the classifiers *)
(* ===================================================================== *)

(** Run [classify] on a row whose three counts are known. *)
Ltac classify_unfold Hrow :=
  destruct Hrow as (Hf & Ho & Hr);
  unfold AoiClassify.classify, AoiClassify.gt0, AoiClassify.eq0, py_and;
  rewrite Hf, Ho, Hr; cbn.

(** Case analysis on every comparison left in the goal. *)
Ltac z_cases :=
  repeat match goal with
  | |- context [0 <? ?x] => destruct (Z.ltb_spec 0 x); cbn
  | |- context [?x =? 0] => destruct (Z.eqb_spec x 0); cbn
  end;
  try first [reflexivity | lia | discriminate].

(** C1. Whenever the 'False call' count of a row is positive, [classify]
    returns "False", whatever the 'Overridden' and 'Reworkable' counts
    are. *)
Theorem classify_false_call (row : Series) (f o r : Z) :
  row_counts row f o r → 0 ≤ f → 0 ≤ o → 0 ≤ r → 0 < f →
  AoiClassify.classify row = Ok "False".
Proof.
  intros Hrow _ _ _ Hpos. classify_unfold Hrow.
  by rewrite (proj2 (Z.ltb_lt 0 f) Hpos).
Qed.

Lemma classify_false_call_witness :
  AoiClassify.classify
    [(Some "False call", 2); (Some "Overridden", 5); (Some "Reworkable", 0)]
  = Ok "False".
Proof.
  apply (classify_false_call _ 2 5 0); [repeat split | lia ..].
Defined.

(** C2. Without any 'False call', [classify] returns "Fixed from
    previously caught" for overrides without reworkables, "Suspect" for
    reworkables without overrides, and "Real" when both are present. *)
Theorem classify_no_false_call (row : Series) (f o r : Z) :
  row_counts row f o r → 0 ≤ o → 0 ≤ r → f = 0 →
  (0 < o → r = 0 → AoiClassify.classify row = Ok "Fixed from previously caught") ∧
  (o = 0 → 0 < r → AoiClassify.classify row = Ok "Suspect") ∧
  (0 < o → 0 < r → AoiClassify.classify row = Ok "Real").
Proof.
  intros Hrow Ho0 Hr0 ->. classify_unfold Hrow.
  repeat split; intros; z_cases.
Qed.

Lemma classify_no_false_call_witness :
  AoiClassify.classify
    [(Some "False call", 0); (Some "Overridden", 3); (Some "Reworkable", 0)]
    = Ok "Fixed from previously caught" ∧
  AoiClassify.classify
    [(Some "Overridden", 0); (Some "Reworkable", 4); (Some "False call", 0)]
    = Ok "Suspect" ∧
  AoiClassify.classify
    [(Some "False call", 0); (Some "Overridden", 1); (Some "Reworkable", 2)]
    = Ok "Real".
Proof.
  split; [| split].
  - apply (classify_no_false_call _ 0 3 0); [repeat split | lia ..].
  - apply (classify_no_false_call _ 0 0 4); [repeat split | lia ..].
  - apply (classify_no_false_call _ 0 1 2); [repeat split | lia ..].
Defined.

(** C5. A row with non-negative counts of which at least one is
    positive is never classified "None"; [classify] returns "None"
    exactly on the counts (0, 0, 0). *)
Theorem classify_none_only_at_zero (row : Series) (f o r : Z) :
  row_counts row f o r → 0 ≤ f → 0 ≤ o → 0 ≤ r →
  (0 < f + o + r →
     ∃ outcome, AoiClassify.classify row = Ok outcome ∧ outcome ≠ "None") ∧
  (AoiClassify.classify row = Ok "None" ↔ f = 0 ∧ o = 0 ∧ r = 0).
Proof.
  intros Hrow Hf0 Ho0 Hr0. classify_unfold Hrow. split.
  - intros Hsum. z_cases; eexists; (split; [reflexivity | discriminate]).
  - split.
    + z_cases.
    + intros (-> & -> & ->). reflexivity.
Qed.

Lemma classify_none_only_at_zero_witness :
  (0 < 0 + 1 + 0 →
     ∃ outcome,
       AoiClassify.classify
         [(Some "False call", 0); (Some "Overridden", 1); (Some "Reworkable", 0)]
       = Ok outcome ∧ outcome ≠ "None") ∧
  (AoiClassify.classify
     [(Some "False call", 0); (Some "Overridden", 1); (Some "Reworkable", 0)]
   = Ok "None" ↔ 0 = 0 ∧ 1 = 0 ∧ 0 = 0).
Proof.
  apply (classify_none_only_at_zero _ 0 1 0); [repeat split | lia ..].
Defined.

(* --------------------------------------------------------------------- *)
(** ** Columns and rows of a table *)

Lemma column_index_elem cols col :
  Some col ∈ cols → ∃ i, column_index cols col = Some i ∧ (i < length cols)%nat.
Proof.
  induction cols as [|l cols IH]; intros Hin; [by apply elem_of_nil in Hin |].
  cbn. destruct (decide (l = Some col)) as [->|Hne].
  - exists 0%nat. split; [done | cbn; lia].
  - apply elem_of_cons in Hin as [Heq | Hin]; [congruence |].
    destruct (IH Hin) as (i & -> & Hlt). exists (S i). split; [done | cbn; lia].
Qed.

Lemma getitem_as_series cols vals col i :
  column_index cols col = Some i → length vals = length cols →
  getitem (as_series cols vals) col = Ok (nth i vals 0).
Proof.
  unfold as_series. revert vals i.
  induction cols as [|l cols IH]; intros vals i Hidx Hlen; [done |].
  destruct vals as [|v vals]; [done |]. cbn in *.
  destruct (decide (l = Some col)).
  - by injection Hidx as <-.
  - destruct (column_index cols col) as [j|] eqn:Hj; [| done].
    injection Hidx as <-. apply IH; [done | lia].
Qed.

Lemma row_counts_of_frame cols vals :
  Forall (λ col, Some col ∈ cols) AoiDefectStatus.REWORK_STATUS_COLUMNS →
  length vals = length cols →
  row_counts (as_series cols vals)
    (count_at cols vals "False call") (count_at cols vals "Overridden")
    (count_at cols vals "Reworkable").
Proof.
  intros Hcols Hlen. unfold AoiDefectStatus.REWORK_STATUS_COLUMNS in Hcols.
  repeat (apply Forall_cons in Hcols as [?%column_index_elem Hcols]).
  unfold row_counts, count_at.
  repeat split;
    match goal with
    | H : ∃ i, column_index cols ?c = _ ∧ _ |- getitem _ ?c = _ =>
        destruct H as (i & Hi & _); rewrite Hi; by apply getitem_as_series
    end.
Qed.

Lemma get_column_counts tbl col :
  Some col ∈ columns tbl →
  get_column tbl col = Ok (map (λ row, count_at (columns tbl) row.2 col) (rows tbl)).
Proof.
  intros (i & Hi & _)%column_index_elem. unfold get_column, count_at.
  by rewrite Hi.
Qed.

(** [np.select] over columns computed row by row is the row-wise
    choice. *)
Lemma np_select_rows {A B} (l : list A) (conds : list (A → bool))
    (choices : list B) (d : B) :
  np_select (length l) (map (λ c, map c l) conds) choices d
  = map (λ x, np_select_at (map (λ c, c x) conds) choices d) l.
Proof.
  unfold np_select. apply list_eq. intros i.
  rewrite !list_lookup_fmap.
  destruct (l !! i) as [x|] eqn:Hx; cbn.
  - rewrite lookup_seq_lt by (by eapply lookup_lt_Some). cbn.
    do 2 f_equal. rewrite map_map. apply map_ext. intros c.
    by rewrite nth_lookup, list_lookup_fmap, Hx.
  - rewrite lookup_seq_ge; [done |]. by apply lookup_ge_None.
Qed.

Lemma zip_with_map_r {A B C} (f : A → B → C) (g : A → B) (l : list A) :
  zip_with f l (map g l) = map (λ x, f x (g x)) l.
Proof. induction l; cbn; congruence. Qed.

(** [assign_outcome] on a table with the three columns: every row is
    labelled by the 3-way rule, and the rows labelled "None" go. *)
Lemma assign_outcome_rule (tbl : Frame) :
  has_disposition_columns tbl →
  AoiDefectStatus.assign_outcome tbl =
    Ok {| ccolumns := columns tbl;
          crows :=
            filter (λ r, r.2 ≠ "None")
              (map (λ row, (row.1, row.2,
                            spec_three_way_rule
                              (count_at (columns tbl) row.2 "False call")
                              (count_at (columns tbl) row.2 "Overridden")
                              (count_at (columns tbl) row.2 "Reworkable")))
                   (rows tbl)) |}.
Proof.
  intros Hcols. unfold has_disposition_columns, AoiDefectStatus.REWORK_STATUS_COLUMNS in Hcols.
  repeat (apply Forall_cons in Hcols as [? Hcols]).
  unfold AoiDefectStatus.assign_outcome.
  rewrite !get_column_counts by done. cbn.
  do 2 f_equal. rewrite !map_map.
  pose proof (np_select_rows (rows tbl)
    [ (λ row, 0 <? count_at (columns tbl) row.2 "False call");
      (λ row, 0 <? count_at (columns tbl) row.2 "Overridden");
      (λ row, 0 <? count_at (columns tbl) row.2 "Reworkable") ]
    ["False"; "Real"; "Suspect"] "None") as Hsel.
  cbn [map] in Hsel. rewrite Hsel. rewrite zip_with_map_r.
  (* the first-match choice of [np.select] unfolds to the rule *)
  reflexivity.
Qed.

(** The rows of the table [assign_outcome] returns. *)
Lemma assign_outcome_mem (tbl : Frame) :
  has_disposition_columns tbl →
  ∃ status, AoiDefectStatus.assign_outcome tbl = Ok status ∧
    ∀ k vals outcome, (k, vals, outcome) ∈ crows status ↔
       (k, vals) ∈ rows tbl ∧ outcome ≠ "None" ∧
       outcome = spec_three_way_rule
                   (count_at (columns tbl) vals "False call")
                   (count_at (columns tbl) vals "Overridden")
                   (count_at (columns tbl) vals "Reworkable").
Proof.
  intros Hcols. eexists. split; [by apply assign_outcome_rule |]. cbn.
  intros k vals outcome. rewrite list_elem_of_filter, list_elem_of_fmap. cbn.
  split.
  - intros (Hne & [k' vals'] & [= -> -> ->] & Hin). done.
  - intros (Hin & Hne & ->). split; [done |]. by exists (k, vals).
Qed.

(** C4. On a table with the three disposition columns, [assign_outcome]
    labels every row by the first-match-wins rule False, else Real, else
    Suspect; a row matching none of them is labelled "None" and is
    absent from the returned table; and the label "Fixed from previously
    caught" never occurs. *)
Theorem assign_outcome_three_way (tbl : Frame) :
  has_disposition_columns tbl →
  ∃ status, AoiDefectStatus.assign_outcome tbl = Ok status ∧
    crows status =
      filter (λ r, r.2 ≠ "None")
        (map (λ row, (row.1, row.2,
                      spec_three_way_rule
                        (count_at (columns tbl) row.2 "False call")
                        (count_at (columns tbl) row.2 "Overridden")
                        (count_at (columns tbl) row.2 "Reworkable")))
             (rows tbl)) ∧
    (∀ k vals outcome, (k, vals, outcome) ∈ crows status ↔
       (k, vals) ∈ rows tbl ∧ outcome ≠ "None" ∧
       outcome = spec_three_way_rule
                   (count_at (columns tbl) vals "False call")
                   (count_at (columns tbl) vals "Overridden")
                   (count_at (columns tbl) vals "Reworkable")) ∧
    Forall (λ r, r.2 ≠ "Fixed from previously caught") (crows status).
Proof.
  intros Hcols.
  destruct (assign_outcome_mem tbl Hcols) as (status & Hrun & Hmem).
  exists status. split; [done |].
  split; [| split; [exact Hmem |]].
  - rewrite (assign_outcome_rule tbl Hcols) in Hrun. by injection Hrun as <-.
  - apply Forall_forall. intros [[k vals] outcome] Hin.
    apply Hmem in Hin as (_ & _ & ->). cbn. unfold spec_three_way_rule.
    by repeat case_match.
Qed.

Lemma assign_outcome_three_way_witness :
  ∃ status, AoiDefectStatus.assign_outcome sample_frame = Ok status ∧
    map snd (crows status) = ["False"; "Real"; "Suspect"].
Proof.
  destruct (assign_outcome_three_way sample_frame) as (status & Hrun & Hrows & _).
  - unfold has_disposition_columns, AoiDefectStatus.REWORK_STATUS_COLUMNS, sample_frame.
    cbn. repeat constructor.
  - exists status. split; [exact Hrun |]. rewrite Hrows. reflexivity.
Defined.

(** C3. The two rules disagree: there are non-negative counts, not all
    zero, that [classify] and [assign_outcome] label differently; in
    particular every row with overrides only (f = 0, o > 0, r = 0) is
    "Fixed from previously caught" for [classify] and "Real" for
    [assign_outcome]. *)
Theorem classifiers_disagree :
  (∃ f o r, 0 ≤ f ∧ 0 ≤ o ∧ 0 ≤ r ∧ 0 < f + o + r ∧
     ∃ tbl k vals a b,
       row_counts (as_series (columns tbl) vals) f o r ∧
       (k, vals) ∈ rows tbl ∧
       AoiClassify.classify (as_series (columns tbl) vals) = Ok a ∧
       assigned tbl k vals b ∧ a ≠ b) ∧
  (∀ tbl k vals o,
     has_disposition_columns tbl → length vals = length (columns tbl) →
     (k, vals) ∈ rows tbl →
     row_counts (as_series (columns tbl) vals) 0 o 0 → 0 < o →
     AoiClassify.classify (as_series (columns tbl) vals)
       = Ok "Fixed from previously caught" ∧
     assigned tbl k vals "Real").
Proof.
  assert (∀ tbl k vals o,
     has_disposition_columns tbl → length vals = length (columns tbl) →
     (k, vals) ∈ rows tbl →
     row_counts (as_series (columns tbl) vals) 0 o 0 → 0 < o →
     AoiClassify.classify (as_series (columns tbl) vals)
       = Ok "Fixed from previously caught" ∧
     assigned tbl k vals "Real") as Hgen.
  { intros tbl k vals o Hcols Hlen Hin Hrow Hpos. split.
    - pose proof Hrow as Hrow'. classify_unfold Hrow'.
      by rewrite (proj2 (Z.ltb_lt 0 o) Hpos).
    - destruct (assign_outcome_mem tbl Hcols) as (status & Hrun & Hmem).
      exists status. split; [done |]. apply Hmem. split; [done |].
      pose proof (row_counts_of_frame _ _ Hcols Hlen) as (Hf2 & Ho2 & Hr2).
      destruct Hrow as (Hf1 & Ho1 & Hr1).
      rewrite Hf1 in Hf2. rewrite Ho1 in Ho2. rewrite Hr1 in Hr2.
      injection Hf2 as <-. injection Ho2 as <-. injection Hr2 as <-.
      unfold spec_three_way_rule. cbn.
      rewrite (proj2 (Z.ltb_lt 0 o) Hpos). done. }
  split; [| exact Hgen].
  exists 0, 3, 0. repeat (split; [lia |]).
  exists sample_frame, (mkKey (Some "SN1") (Some "R7") (Some "Bridge")), [0; 3; 0].
  exists "Fixed from previously caught", "Real".
  assert ((mkKey (Some "SN1") (Some "R7") (Some "Bridge"), [0; 3; 0])
            ∈ rows sample_frame) as Hin.
  { cbn. apply elem_of_cons. right. apply elem_of_cons. by left. }
  assert (has_disposition_columns sample_frame) as Hcols.
  { unfold has_disposition_columns. cbn. repeat constructor. }
  assert (row_counts (as_series (columns sample_frame) [0; 3; 0]) 0 3 0) as Hrow
    by (repeat split).
  destruct (Hgen sample_frame _ [0; 3; 0] 3 Hcols eq_refl Hin Hrow ltac:(lia))
    as [Hc Ha].
  repeat split; try done.
Qed.

Lemma classifiers_disagree_witness :
  AoiClassify.classify (as_series (columns sample_frame) [0; 3; 0])
    = Ok "Fixed from previously caught" ∧
  assigned sample_frame (mkKey (Some "SN1") (Some "R7") (Some "Bridge")) [0; 3; 0] "Real".
Proof.
  apply (proj2 classifiers_disagree sample_frame _ _ 3).
  - unfold has_disposition_columns. cbn. repeat constructor.
  - reflexivity.
  - cbn. apply elem_of_cons. right. apply elem_of_cons. by left.
  - repeat split.
  - lia.
Defined.

(* ===================================================================== *)
(** * The loop collapser *)
(* ===================================================================== *)


Lemma filter_none {A} (P : A → Prop) `{∀ x, Decision (P x)} (l : list A) :
  (∀ x, x ∈ l → ¬ P x) → filter P l = [].
Proof.
  intros Hnone. destruct (filter P l) as [|x l'] eqn:Hf; [done |].
  assert (x ∈ filter P l) as [HP Hin]%list_elem_of_filter
    by (rewrite Hf; apply list_elem_of_here).
  by destruct (Hnone x Hin).
Qed.

Lemma filter_all {A} (P : A → Prop) `{∀ x, Decision (P x)} (l : list A) :
  (∀ x, x ∈ l → P x) → filter P l = l.
Proof.
  induction l as [|x l IH]; intros Hall; [done |].
  rewrite filter_cons_True by (apply Hall, list_elem_of_here).
  f_equal. apply IH. intros y Hy. by apply Hall, list_elem_of_further.
Qed.






















(* ===================================================================== *)
(** * The command-line entry points without an input file *)
(* ===================================================================== *)

(** C9. When no input file is given on the command line and no file in
    the current directory matches "Defect RawData - *.xlsx", either
    script prints one error message to stderr and exits with status 1;
    it reads no spreadsheet and writes no file. *)
Theorem cli_without_input_exits (w : World) :
  glob w "Defect RawData - *.xlsx" = [] →
  ((length (argv w) ≤ 1)%nat →
     AoiClassify.entry_point w =
       ([PrintErr ("[ERROR] No AOI export found in current directory. "
                   ++ "Please pass the XLSX as the first argument.")],
        inr (SysExit 1))) ∧
  (input (parsed_args w) = None →
     AoiDefectStatus.main w =
       ([PrintErr "[ERROR] No input file provided and none matching pattern found."],
        inr (SysExit 1))).
Proof.
  intros Hglob.
  assert (find_latest_rawdata w default_pattern = None) as Hnone.
  { unfold find_latest_rawdata, default_pattern. by rewrite Hglob. }
  split.
  - intros Hargs. unfold AoiClassify.entry_point.
    rewrite (bool_decide_eq_false_2 (1 < length (argv w))%nat) by lia.
    by rewrite Hnone.
  - intros Hinput. unfold AoiDefectStatus.main. by rewrite Hinput, Hnone.
Qed.

Lemma cli_without_input_exits_witness :
  (AoiClassify.entry_point empty_dir_world).2 = inr (SysExit 1) ∧
  (AoiDefectStatus.main empty_dir_world).2 = inr (SysExit 1).
Proof.
  destruct (cli_without_input_exits empty_dir_world eq_refl) as [Hc Hs].
  rewrite Hc by (cbn; lia). rewrite Hs by reflexivity. done.
Defined.

(* ===================================================================== *)
(** * Outcome tallies of the issue tracker *)
(* ===================================================================== *)

Section TallyFacts.

Variable to_datetime : list cell → result (list (option Z)).




End TallyFacts.


(* ===================================================================== *)
(** * The issue change log *)
(* ===================================================================== *)

Section ChangelogFacts.

Variable now : string.
Variable affinity : string → value → value.
Variable id_of : value → option Z.

Abbreviation log_change := (ActionTracker.log_change now affinity).
Abbreviation save_issue := (ActionTracker.save_issue now affinity id_of).
Abbreviation step := (ActionTracker.step now affinity id_of).



Lemma ensure_changelog_table_rows conn :
  changelog_rows (ActionTracker.ensure_changelog_table conn) = changelog_rows conn
  ∧ changelog_last_id (ActionTracker.ensure_changelog_table conn) = changelog_last_id conn.
Proof.
  unfold changelog_rows, changelog_last_id, ActionTracker.ensure_changelog_table.
  cbn. by destruct (issue_changelog conn).
Qed.

Lemma ensure_issues_table_rows conn :
  changelog_rows (ActionTracker.ensure_issues_table conn) = changelog_rows conn
  ∧ changelog_last_id (ActionTracker.ensure_issues_table conn) = changelog_last_id conn.
Proof. done. Qed.

Lemma log_change_rows conn issue_id key old new who :
  changelog_rows (log_change conn issue_id key old new who)
  = changelog_rows conn ++
      [{| entry_id := changelog_last_id conn + 1;
          entry_issue_id := affinity "issue_id" issue_id;
          field_name := key;
          old_value := ActionTracker.py_str old;
          new_value := ActionTracker.py_str new;
          changed_by := who;
          changed_at := now |}]
  ∧ changelog_last_id (log_change conn issue_id key old new who)
    = changelog_last_id conn + 1.
Proof.
  unfold changelog_rows, changelog_last_id, ActionTracker.log_change,
    ActionTracker.ensure_changelog_table.
  cbn. by destruct (issue_changelog conn).
Qed.

Lemma log_differences_rows conn t existing issue_id clean_data :
  changelog_rows (ActionTracker.log_differences now affinity conn t existing issue_id clean_data)
  = changelog_rows conn ++
      entries_for now affinity (changelog_last_id conn) issue_id
                  (changed_fields (icolumns t) existing clean_data).
Proof.
  unfold ActionTracker.log_differences. revert conn.
  induction clean_data as [|[key new] rest IH]; intros conn; cbn.
  - by rewrite app_nil_r.
  - unfold changed_fields. cbn.
    case_bool_decide; [| apply IH].
    destruct (field (icolumns t) existing key) as [old|]; [| apply IH].
    case_bool_decide; [| apply IH]. cbn. rewrite IH.
    destruct (log_change_rows conn issue_id key old new "System") as [-> ->].
    by rewrite <- app_assoc.
Qed.










End ChangelogFacts.


(* ===================================================================== *)
(** * The [defects] table under [upsert_df] *)
(* ===================================================================== *)

Section Upsert.

Import IngestToDb.

Variable tcols : list string.

Lemma pk_conflict_self r : keyed tcols r → pk_conflict tcols r r = true.
Proof. intros Hk. by apply bool_decide_eq_true_2. Qed.

Lemma replace_rows_split rs rows :
  foldl (replace_row tcols) rows rs
  = filter (survives tcols rs) rows ++ foldl (replace_row tcols) [] rs.
Proof.
  revert rows. induction rs as [|r rs IH]; intros rows; cbn.
  - rewrite app_nil_r. symmetry. apply filter_all. intros x _. constructor.
  - rewrite (IH (replace_row tcols rows r)), (IH [r]).
    unfold replace_row at 1. rewrite filter_app.
    rewrite list_filter_filter, <- app_assoc. f_equal.
    apply list_filter_iff. intros x. unfold survives. rewrite Forall_cons. tauto.
Qed.

Lemma replace_rows_from_batch rs x :
  x ∈ foldl (replace_row tcols) [] rs → x ∈ rs.
Proof.
  induction rs as [|r rs IH] using rev_ind; cbn; [done |].
  rewrite foldl_app. cbn. unfold replace_row.
  rewrite !elem_of_app, list_elem_of_filter. tauto.
Qed.

(** Upserting a batch of rows with NULL-free keys a second time
    changes nothing. *)
Lemma replace_rows_twice rs rows :
  Forall (keyed tcols) rs →
  foldl (replace_row tcols) (foldl (replace_row tcols) rows rs) rs
  = foldl (replace_row tcols) rows rs.
Proof.
  intros Hkeyed. rewrite (replace_rows_split rs (foldl _ rows rs)).
  rewrite (replace_rows_split rs rows), filter_app, <- app_assoc. f_equal.
  - rewrite list_filter_filter. apply list_filter_iff. tauto.
  - rewrite filter_none; [done |].
    intros x Hx%replace_rows_from_batch Hsurv.
    unfold survives in Hsurv. rewrite Forall_forall in Hsurv, Hkeyed.
    specialize (Hsurv x Hx). rewrite pk_conflict_self in Hsurv by auto. done.
Qed.


End Upsert.

Lemma executemany_rows t cols rows :
  filter (λ c, c ∉ tcolumns t) cols = [] →
  IngestToDb.executemany t cols rows =
    Ok {| tcolumns := tcolumns t;
          trows := foldl (IngestToDb.replace_row (tcolumns t)) (trows t)
                         (map (IngestToDb.stored_row (tcolumns t) cols) rows) |}.
Proof.
  intros Hcols. revert t Hcols.
  induction rows as [|vals rows IH]; intros t Hcols; cbn.
  - by destruct t.
  - unfold IngestToDb.insert_or_replace. rewrite Hcols. cbn.
    by rewrite IH.
Qed.

Lemma executemany_columns t cols rows t' :
  IngestToDb.executemany t cols rows = Ok t' →
  tcolumns t' = tcolumns t ∧
  (rows = [] ∨ filter (λ c, c ∉ tcolumns t) cols = []).
Proof.
  destruct rows as [|vals rows]; cbn; [intros [= <-]; auto |].
  unfold IngestToDb.insert_or_replace.
  destruct (filter (λ c, c ∉ tcolumns t) cols) eqn:Hcols; [| done]. cbn.
  rewrite executemany_rows by done. intros [= <-]. auto.
Qed.

(** X13. When every row of the frame has a key without NaN, a second
    [upsert_df] of the same frame leaves the table exactly as the first
    one left it: re-ingesting replaces and does not append. *)
Lemma upsert_df_twice t df t1 :
  Forall (keyed (tcolumns t)) (upsert_rows (tcolumns t) df) →
  IngestToDb.upsert_df (Some t) df = Ok t1 →
  IngestToDb.upsert_df (Some t1) df = Ok t1.
Proof.
  unfold IngestToDb.upsert_df. intros Hkeyed Hrun.
  destruct (executemany_columns _ _ _ _ Hrun) as [Hcols [Hnil | Hok]].
  - rewrite Hnil in *. cbn in *. done.
  - rewrite executemany_rows in Hrun by done. injection Hrun as <-. cbn.
    rewrite executemany_rows by done. cbn.
    fold (upsert_rows (tcolumns t) df). by rewrite replace_rows_twice.
Qed.


(** C6 (the code departs from it).  Ingesting twice an export that has
    a row with a blank Ref_Id stores that row twice: after the first
    run the table has one row, after the second it has two rows with
    the same (SerialNumber, Ref_Id, DefectCode), because the blank cell
    is stored as NULL and a NULL in the primary key never collides. *)
Theorem reingest_blank_key_appends :
  ∃ t1 t2,
    IngestToDb.ingest_file blank_ref_world None "Defect RawData - 1.xlsx" = Ok t1 ∧
    IngestToDb.ingest_file blank_ref_world (Some t1) "Defect RawData - 1.xlsx" = Ok t2 ∧
    trows t1 = [[Text "SN1"; Null; Text "Bridge"; Num 1; Num 0; Num 0;
                 Text "Suspect"; Text "P-100"]] ∧
    trows t2 = trows t1 ++ trows t1 ∧
    map (IngestToDb.pk_of (tcolumns t2)) (trows t2)
      = [[Text "SN1"; Null; Text "Bridge"]; [Text "SN1"; Null; Text "Bridge"]].
Proof. do 2 eexists. repeat split; vm_compute; reflexivity. Qed.

(* ===================================================================== *)
(** * Further properties: finding the newest export *)
(* ===================================================================== *)

Lemma insert_desc_elem x y l : x ∈ insert_desc y l ↔ x = y ∨ x ∈ l.
Proof.
  induction l as [|z l IH]; cbn.
  - rewrite list_elem_of_singleton, elem_of_nil. tauto.
  - destruct (z.2 <=? y.2); rewrite !elem_of_cons; [tauto |].
    rewrite IH. tauto.
Qed.

Lemma sorted_by_mtime_desc_elem x files :
  x ∈ sorted_by_mtime_desc files ↔ x ∈ files.
Proof.
  induction files as [|y files IH]; cbn; [done |].
  by rewrite insert_desc_elem, elem_of_cons, IH.
Qed.

Lemma insert_desc_newest x l : newest_first l → newest_first (insert_desc x l).
Proof.
  destruct l as [|y l]; cbn.
  - intros _ z ->%list_elem_of_singleton. lia.
  - intros Hmax. destruct (Z.leb_spec y.2 x.2) as [Hle|Hgt]; cbn.
    + intros z [->|Hz]%elem_of_cons; [lia |]. specialize (Hmax z Hz). lia.
    + intros z [->|Hz]%elem_of_cons; [lia |].
      apply insert_desc_elem in Hz as [->|Hz]; [lia |].
      apply Hmax. by apply list_elem_of_further.
Qed.

Lemma sorted_by_mtime_desc_newest files : newest_first (sorted_by_mtime_desc files).
Proof.
  induction files as [|y files IH]; cbn; [done |]. by apply insert_desc_newest.
Qed.

Lemma find_latest_rawdata_elem (w : World) (pattern : string) :
  (find_latest_rawdata w pattern = None → glob w pattern = []) ∧
  (∀ f, find_latest_rawdata w pattern = Some f →
     ∃ m, (f, m) ∈ glob w pattern ∧
          ∀ g m', (g, m') ∈ glob w pattern → m' ≤ m).
Proof.
  unfold find_latest_rawdata.
  pose proof (sorted_by_mtime_desc_newest (glob w pattern)) as Hmax.
  pose proof (λ x, sorted_by_mtime_desc_elem x (glob w pattern)) as Helem.
  destruct (sorted_by_mtime_desc (glob w pattern)) as [|[f m] l]; cbn in *.
  - split; [| done]. intros _.
    destruct (glob w pattern) as [|x g]; [done |].
    pose proof (proj2 (Helem x) (list_elem_of_here _ _)) as Hx.
    by apply elem_of_nil in Hx.
  - split; [done |].
    intros f' [= <-]. exists m. split; [apply Helem, list_elem_of_here |].
    intros g m' Hin. apply (Hmax (g, m')). by apply Helem.
Qed.

(** X1. [find_latest_rawdata] returns nothing exactly when no file
    matches the pattern; otherwise it returns one of the matching files,
    and no matching file has a later modification time. *)
Theorem find_latest_rawdata_newest (w : World) (pattern : string) :
  (find_latest_rawdata w pattern = None ↔ glob w pattern = []) ∧
  (∀ f, find_latest_rawdata w pattern = Some f →
     ∃ m, (f, m) ∈ glob w pattern ∧
          ∀ g m', (g, m') ∈ glob w pattern → m' ≤ m).
Proof.
  destruct (find_latest_rawdata_elem w pattern) as [Hnone Hsome].
  split; [| exact Hsome]. split; [exact Hnone |].
  intros Hnil. unfold find_latest_rawdata. by rewrite Hnil.
Qed.

Lemma find_latest_rawdata_newest_witness :
  ∃ m, ("Defect RawData - b.xlsx", m) ∈ glob three_exports_world default_pattern ∧
       ∀ g m', (g, m') ∈ glob three_exports_world default_pattern → m' ≤ m.
Proof.
  by apply (proj2 (find_latest_rawdata_newest three_exports_world default_pattern)).
Defined.

(* ===================================================================== *)
(** * Further properties: missing columns *)
(* ===================================================================== *)

Lemma getitem_absent row label :
  Some label ∉ map fst row → getitem row label = Raise (KeyError label).
Proof.
  induction row as [|[l v] row IH]; cbn; [done |]. intros Hnot.
  rewrite decide_False by (intros ->; apply Hnot, list_elem_of_here).
  apply IH. intros Hin. by apply Hnot, list_elem_of_further.
Qed.

(** X2. [classify] reads the columns lazily: a row without a 'False
    call' column raises [KeyError]; a row with a positive 'False call'
    is "False" even when the other two columns are missing; and a row
    with 'False call' at zero but no 'Reworkable' column raises
    [KeyError] for that column. *)
Theorem classify_missing_columns (row : Series) :
  (Some "False call" ∉ map fst row →
     AoiClassify.classify row = Raise (KeyError "False call")) ∧
  (∀ f, getitem row "False call" = Ok f → 0 < f →
     AoiClassify.classify row = Ok "False") ∧
  (∀ f, getitem row "False call" = Ok f → f ≤ 0 →
     Some "Reworkable" ∉ map fst row →
     AoiClassify.classify row = Raise (KeyError "Reworkable")).
Proof.
  unfold AoiClassify.classify, AoiClassify.gt0, AoiClassify.eq0, py_and.
  split; [| split].
  - intros Habs. by rewrite (getitem_absent _ _ Habs).
  - intros f -> Hpos. cbn. by rewrite (proj2 (Z.ltb_lt 0 f) Hpos).
  - intros f -> Hle Habs. cbn. rewrite (proj2 (Z.ltb_ge 0 f) Hle).
    by rewrite (getitem_absent _ _ Habs).
Qed.

Lemma classify_missing_columns_witness :
  AoiClassify.classify [(Some "Overridden", 2)] = Raise (KeyError "False call") ∧
  AoiClassify.classify [(Some "False call", 1)] = Ok "False" ∧
  AoiClassify.classify [(Some "False call", 0); (Some "Overridden", 2)]
    = Raise (KeyError "Reworkable").
Proof.
  split; [| split].
  - apply (proj1 (classify_missing_columns _)). cbn.
    rewrite list_elem_of_singleton. discriminate.
  - by apply (proj1 (proj2 (classify_missing_columns _)) 1).
  - apply (proj2 (proj2 (classify_missing_columns _)) 0); [done | lia |].
    cbn. rewrite !elem_of_cons, elem_of_nil. intros [?|[?|[]]]; discriminate.
Defined.

Lemma column_index_absent cols col :
  Some col ∉ cols → column_index cols col = None.
Proof.
  induction cols as [|l cols IH]; cbn; [done |]. intros Hnot.
  rewrite decide_False by (intros ->; apply Hnot, list_elem_of_here).
  rewrite IH; [done |]. intros Hin. by apply Hnot, list_elem_of_further.
Qed.

Lemma get_column_absent tbl col :
  Some col ∉ columns tbl → get_column tbl col = Raise (KeyError col).
Proof. intros Habs. unfold get_column. by rewrite column_index_absent. Qed.

(** X3. [assign_outcome] needs all three disposition columns, even on
    a table without rows: it raises [KeyError] for the first of 'False
    call', 'Overridden', 'Reworkable' that the table lacks. *)
Theorem assign_outcome_missing_column (tbl : Frame) :
  (Some "False call" ∉ columns tbl →
     AoiDefectStatus.assign_outcome tbl = Raise (KeyError "False call")) ∧
  (Some "False call" ∈ columns tbl → Some "Overridden" ∉ columns tbl →
     AoiDefectStatus.assign_outcome tbl = Raise (KeyError "Overridden")) ∧
  (Some "False call" ∈ columns tbl → Some "Overridden" ∈ columns tbl →
   Some "Reworkable" ∉ columns tbl →
     AoiDefectStatus.assign_outcome tbl = Raise (KeyError "Reworkable")).
Proof.
  unfold AoiDefectStatus.assign_outcome. split; [| split].
  - intros H1. by rewrite (get_column_absent _ _ H1).
  - intros H1 H2. rewrite (get_column_counts _ _ H1). cbn.
    by rewrite (get_column_absent _ _ H2).
  - intros H1 H2 H3. rewrite (get_column_counts _ _ H1). cbn.
    rewrite (get_column_counts _ _ H2). cbn. by rewrite (get_column_absent _ _ H3).
Qed.

Lemma assign_outcome_missing_column_witness :
  AoiDefectStatus.assign_outcome {| columns := [Some "False call"]; rows := [] |}
  = Raise (KeyError "Overridden").
Proof.
  apply (proj1 (proj2 (assign_outcome_missing_column _))); cbn.
  - apply list_elem_of_here.
  - rewrite list_elem_of_singleton. discriminate.
Defined.

(* ===================================================================== *)
(** * Further properties: from raw rows to outcomes *)
(* ===================================================================== *)













(* ===================================================================== *)
(** * Further properties: the runs of the two scripts *)
(* ===================================================================== *)



Lemma io_ret_bind {A B} (a : A) (f : A → io B) : mret a ≫= f = f a.
Proof. unfold mbind, io_bind, mret, io_ret. cbn. by destruct (f a). Qed.

(** X7. Without arguments and with at least one matching export in the
    directory, the entry point of [aoi_classify.py] processes a newest
    export and writes to "AOI_defect_status.xlsx"; with arguments it
    takes the source from the first and never looks at the directory. *)
Theorem classify_entry_point_source (w : World) :
  ((length (argv w) ≤ 1)%nat → glob w "Defect RawData - *.xlsx" ≠ [] →
     ∃ f m, (f, m) ∈ glob w "Defect RawData - *.xlsx" ∧
            (∀ g m', (g, m') ∈ glob w "Defect RawData - *.xlsx" → m' ≤ m) ∧
            AoiClassify.entry_point w = AoiClassify.main w f "AOI_defect_status.xlsx") ∧
  (∀ prog src, argv w = [prog; src] →
     AoiClassify.entry_point w = AoiClassify.main w src "AOI_defect_status.xlsx") ∧
  (∀ prog src dst rest, argv w = prog :: src :: dst :: rest →
     AoiClassify.entry_point w = AoiClassify.main w src dst).
Proof.
  split; [| split].
  - intros Hargs Hglob.
    destruct (find_latest_rawdata w default_pattern) as [f|] eqn:Hf.
    + destruct (proj2 (find_latest_rawdata_elem w default_pattern) f Hf)
        as (m & Hin & Hmax).
      exists f, m. split; [done |]. split; [done |].
      unfold AoiClassify.entry_point.
      rewrite (bool_decide_eq_false_2 (1 < length (argv w))%nat) by lia.
      rewrite (bool_decide_eq_false_2 (2 < length (argv w))%nat) by lia.
      rewrite Hf.
      exact (io_ret_bind f (λ src, AoiClassify.main w src "AOI_defect_status.xlsx")).
    + by apply (proj1 (find_latest_rawdata_elem w default_pattern)) in Hf.
  - intros prog src Hargv. unfold AoiClassify.entry_point. rewrite Hargv.
    rewrite (bool_decide_eq_true_2 (1 < length [prog; src])%nat) by (cbn; lia).
    rewrite (bool_decide_eq_false_2 (2 < length [prog; src])%nat) by (cbn; lia).
    exact (io_ret_bind src (λ src, AoiClassify.main w src "AOI_defect_status.xlsx")).
  - intros prog src dst rest Hargv. unfold AoiClassify.entry_point. rewrite Hargv.
    rewrite !bool_decide_eq_true_2 by (cbn; lia).
    exact (io_ret_bind src (λ src, AoiClassify.main w src dst)).
Qed.

Lemma classify_entry_point_source_witness :
  ∃ f m, (f, m) ∈ glob three_exports_world "Defect RawData - *.xlsx" ∧
         (∀ g m', (g, m') ∈ glob three_exports_world "Defect RawData - *.xlsx" → m' ≤ m) ∧
         AoiClassify.entry_point three_exports_world
         = AoiClassify.main three_exports_world f "AOI_defect_status.xlsx".
Proof.
  apply (proj1 (classify_entry_point_source three_exports_world)).
  - cbn. lia.
  - discriminate.
Defined.






(* ===================================================================== *)
(** * Further properties: no inspection row is lost *)
(* ===================================================================== *)









(* ===================================================================== *)
(** * Further properties: the [defects] table *)
(* ===================================================================== *)








Lemma upsert_df_twice_witness :
  ∃ t1, IngestToDb.upsert_df (Some one_pad_table) two_pads_frame = Ok t1 ∧
        IngestToDb.upsert_df (Some t1) two_pads_frame = Ok t1 ∧
        length (trows t1) = 3%nat.
Proof.
  eexists. split; [reflexivity |]. split; [| reflexivity].
  apply (upsert_df_twice one_pad_table two_pads_frame); [| reflexivity].
  unfold keyed. apply (bool_decide_unpack _). vm_compute. exact I.
Defined.








(* ===================================================================== *)
(** * Further properties: the batch ingestion *)
(* ===================================================================== *)







(* ===================================================================== *)
(** * Further properties: saving issues *)
(* ===================================================================== *)

Section SaveIssueFacts.

Variable now : string.
Variable affinity : string → value → value.
Variable id_of : value → option Z.

Abbreviation save_issue' := (ActionTracker.save_issue now affinity id_of).

(** The tables as [save_issue] sees them after its two [ensure_...]
    calls. *)
Lemma ensured_tables conn :
  issues (ActionTracker.ensure_changelog_table (ActionTracker.ensure_issues_table conn))
  = issues (ActionTracker.ensure_issues_table conn)
  ∧ ∃ t, issues (ActionTracker.ensure_issues_table conn) = Some t.
Proof. split; [done |]. by eexists. Qed.


(** What an update [save_issue] runs, named step by step. *)
Lemma save_issue_update conn data t issue_id :
  issues (ActionTracker.ensure_issues_table conn) = Some t →
  ActionTracker.dict_get
    (map (λ item, (item.1, ActionTracker.clean item.2)) data) "id" = Some issue_id →
  ActionTracker.truthy issue_id = true →
  let clean_data := map (λ item, (item.1, ActionTracker.clean item.2)) data in
  let conn2 := ActionTracker.ensure_changelog_table
                 (ActionTracker.ensure_issues_table conn) in
  let conn3 := match ActionTracker.select_issue id_of t issue_id with
               | Some existing =>
                   ActionTracker.log_differences now affinity conn2 t existing
                     issue_id clean_data
               | None => conn2
               end in
  save_issue' conn data
  = match ActionTracker.update_issue now affinity id_of t
            (filter (λ item, item.1 ≠ "id") clean_data) issue_id with
    | Ok t' => (ActionTracker.with_issues conn3 t', Ok issue_id)
    | Raise e => (conn3, Raise e)
    end.
Proof.
  intros Ht Hid Htruthy. cbv zeta. unfold ActionTracker.save_issue. cbv zeta.
  rewrite Hid, Htruthy.
  change (issues (ActionTracker.ensure_changelog_table
                    (ActionTracker.ensure_issues_table conn)))
    with (issues (ActionTracker.ensure_issues_table conn)).
  rewrite Ht. reflexivity.
Qed.

(** X18. The change log is written before the [UPDATE]: when
    [save_issue] updates an existing issue and the [UPDATE] raises (the
    data name something that is no column), the issue row is left as it
    was, yet the change-log entries for the fields that differ have
    been stored. *)
Theorem save_issue_failed_update_logs (conn : Db) (data : list (string * value))
    (t : Issues) (issue_id : value) (existing : list value) (e : exn) :
  issues (ActionTracker.ensure_issues_table conn) = Some t →
  ActionTracker.dict_get
    (map (λ item, (item.1, ActionTracker.clean item.2)) data) "id" = Some issue_id →
  ActionTracker.truthy issue_id = true →
  ActionTracker.select_issue id_of t issue_id = Some existing →
  (save_issue' conn data).2 = Raise e →
  issues (save_issue' conn data).1 = Some t ∧
  changelog_rows (save_issue' conn data).1
  = changelog_rows conn ++
      entries_for now affinity (changelog_last_id conn) issue_id
        (changed_fields (icolumns t) existing
           (map (λ item, (item.1, ActionTracker.clean item.2)) data)).
Proof.
  intros Ht Hid Htruthy Hsel.
  rewrite (save_issue_update conn data t issue_id Ht Hid Htruthy). cbv zeta.
  rewrite Hsel.
  destruct (ActionTracker.update_issue _ _ _ _ _ _) as [t'|e']; [done |].
  intros _. cbn [fst]. split.
  - assert (∀ c l, issues (ActionTracker.log_differences now affinity c t existing
                             issue_id l) = issues c) as Hiss.
    { intros c l. revert c. unfold ActionTracker.log_differences.
      induction l as [|[k v] l IH]; intros c; [done |]. cbn.
      rewrite IH. case_bool_decide; [| done].
      destruct (field (icolumns t) existing k); [| done].
      by case_bool_decide. }
    by rewrite Hiss.
  - rewrite (log_differences_rows now affinity).
    destruct (ensure_changelog_table_rows (ActionTracker.ensure_issues_table conn))
      as [-> ->].
    by destruct (ensure_issues_table_rows conn) as [-> ->].
Qed.


End SaveIssueFacts.


Lemma save_issue_failed_update_logs_witness :
  map (λ e, (field_name e, old_value e, new_value e))
      (changelog_rows
         (ActionTracker.save_issue "2025-07-27 08:00:00" (λ _ v, v) sample_id_of
            sample_db (sample_update ++ [("severity", VStr "high")])).1)
  = [("status", "", "Created"); ("status", "Open", "Closed"); ("line_name", "L2", "")].
Proof.
  destruct (issues (ActionTracker.ensure_issues_table sample_db)) as [t|] eqn:Ht;
    [| discriminate Ht].
  destruct (ActionTracker.select_issue sample_id_of t (VInt 1)) as [existing|] eqn:Hsel;
    [| vm_compute in Ht; injection Ht as <-; discriminate Hsel].
  destruct (save_issue_failed_update_logs "2025-07-27 08:00:00" (λ _ v, v) sample_id_of
              sample_db (sample_update ++ [("severity", VStr "high")]) t (VInt 1)
              existing (OperationalError "no such column: severity") Ht eq_refl
              eq_refl Hsel) as [_ Hrows].
  - vm_compute in Ht. injection Ht as <-. reflexivity.
  - rewrite Hrows. vm_compute in Ht. injection Ht as <-.
    vm_compute in Hsel. injection Hsel as <-. reflexivity.
Defined.


Section SaveIssueMore.

Variable now : string.
Variable affinity : string → value → value.
Variable id_of : value → option Z.

Abbreviation save_issue2 := (ActionTracker.save_issue now affinity id_of).
Abbreviation step2 := (ActionTracker.step now affinity id_of).




Lemma numbered_same c c' :
  changelog_rows c' = changelog_rows c → changelog_last_id c' = changelog_last_id c →
  log_numbered c → log_numbered c'.
Proof. unfold log_numbered. by intros -> ->. Qed.

Lemma numbered_log_change c issue_id key old new who :
  log_numbered c →
  log_numbered (ActionTracker.log_change now affinity c issue_id key old new who).
Proof.
  intros [Hlast Hids]. unfold log_numbered.
  destruct (log_change_rows now affinity c issue_id key old new who) as [-> ->].
  rewrite length_app, map_app, Hids, Hlast. cbn [length map entry_id].
  replace (length (changelog_rows c) + 1)%nat with (S (length (changelog_rows c)))
    by lia.
  rewrite seqZ_S. split; [lia |]. do 2 f_equal. lia.
Qed.

Lemma numbered_log_differences c t existing issue_id clean_data :
  log_numbered c →
  log_numbered (ActionTracker.log_differences now affinity c t existing issue_id
                  clean_data).
Proof.
  unfold ActionTracker.log_differences. revert c.
  induction clean_data as [|[k v] l IH]; intros c Hc; [done |]. cbn.
  apply IH. case_bool_decide; [| done].
  destruct (field (icolumns t) existing k); [| done].
  case_bool_decide; [| done]. by apply numbered_log_change.
Qed.

Lemma numbered_save_issue c data :
  log_numbered c → log_numbered (save_issue2 c data).1.
Proof.
  intros Hc. unfold ActionTracker.save_issue. cbv zeta.
  set (c2 := ActionTracker.ensure_changelog_table
               (ActionTracker.ensure_issues_table c)).
  assert (log_numbered c2) as H2.
  { eapply numbered_same; [| | exact Hc].
    - unfold c2. rewrite (proj1 (ensure_changelog_table_rows _)).
      apply ensure_issues_table_rows.
    - unfold c2. rewrite (proj2 (ensure_changelog_table_rows _)).
      apply ensure_issues_table_rows. }
  assert (∀ t vals,
    log_numbered
      (match ActionTracker.insert_issue now affinity t vals with
       | Ok (t', id) =>
           (ActionTracker.log_change now affinity (ActionTracker.with_issues c2 t')
              (VInt id) "status" (VStr "") (VStr "Created") "System", Ok (VInt id))
       | Raise e => (c2, Raise e)
       end).1) as Hinsert.
  { intros t vals. destruct (ActionTracker.insert_issue _ _ t vals) as [[t' id]|e];
      [| done].
    cbn. apply numbered_log_change. by eapply numbered_same; [| | exact H2]. }
  destruct (ActionTracker.dict_get _ "id") as [issue_id|]; [| apply Hinsert].
  destruct (ActionTracker.truthy issue_id); [| apply Hinsert].
  set (c3 := match ActionTracker.select_issue id_of _ issue_id with
             | Some existing => _
             | None => c2
             end).
  assert (log_numbered c3) as H3.
  { unfold c3. destruct (ActionTracker.select_issue id_of _ issue_id); [| done].
    by apply numbered_log_differences. }
  destruct (ActionTracker.update_issue _ _ _ _ _ _); [| done].
  cbn. by eapply numbered_same; [| | exact H3].
Qed.

(** X21. The change log is numbered in storage order: once its rows
    carry the ids 1, 2, 3, ... (as in a new database), they do so after
    every further call that reaches the database, so an id is never
    reused and a later change always has a larger id. *)
Theorem changelog_ids_numbered (conn : Db) (ops : list ActionTracker.op) :
  log_numbered conn → log_numbered (foldl step2 conn ops).
Proof.
  revert conn. induction ops as [|o ops IH]; intros conn Hc; [done |].
  cbn. apply IH. destruct o; cbn.
  - by eapply numbered_same; [| | exact Hc].
  - eapply numbered_same; [| | exact Hc]; apply ensure_changelog_table_rows.
  - by apply numbered_log_change.
  - by apply numbered_save_issue.
  - by eapply numbered_same; [| | exact Hc].
  - eapply numbered_same; [| | exact Hc]; apply ensure_changelog_table_rows.
  - by eapply numbered_same; [| | exact Hc].
Qed.

End SaveIssueMore.


Lemma changelog_ids_numbered_witness :
  map entry_id
    (changelog_rows
       (foldl (ActionTracker.step "2025-07-27 08:00:00" (λ _ v, v) sample_id_of)
          {| defects := None; issues := None; issue_changelog := None |}
          [ActionTracker.SaveIssue [("date_reported", VStr "2025-07-26")];
           ActionTracker.SaveIssue sample_update;
           ActionTracker.ViewHistory (VInt 1)]))
  = seqZ 1 3.
Proof.
  match goal with |- map entry_id (changelog_rows ?c) = _ =>
    assert (log_numbered c) as [_ Hids]
  end.
  - apply changelog_ids_numbered. by split.
  - rewrite Hids. reflexivity.
Defined.

Section UpdateRoundTrip.

Variable now : string.
Variable affinity : string → value → value.
Variable id_of : value → option Z.




Lemma set_field_length (cols : list string) (row : list value) c v :
  length (ActionTracker.set_field cols row c v) = length row.
Proof.
  revert row. induction cols as [|x cols IH]; intros [|y row]; cbn; try done.
  case_decide; cbn; [done | by rewrite IH].
Qed.






End UpdateRoundTrip.


(* ===================================================================== *)
(** * The cached helpers of the dashboard *)
(* ===================================================================== *)

Lemma str_le_total : Total str_le.
Proof.
  intros a b. unfold str_le. rewrite (String.compare_antisym b a).
  destruct (String.compare a b); cbn; auto.
Qed.

(** X23. [get_unique_values] lists the values of a column in ascending
    order, each value once and NaN never; a value is listed exactly
    when the frame has the column and some cell of it holds the
    value. *)
Theorem get_unique_values_sorted (df : DefectsFrame) (col : string) :
  Sorted str_le (App.get_unique_values df col) ∧
  NoDup (App.get_unique_values df col) ∧
  (∀ x, x ∈ App.get_unique_values df col ↔
        col ∈ map fst df ∧ Some x ∈ ActionTracker.column df col).
Proof.
  unfold App.get_unique_values. case_bool_decide as Hcol.
  - split; [apply Sorted_merge_sort, str_le_total |]. split.
    + rewrite merge_sort_Permutation. apply NoDup_remove_dups.
    + intros x. rewrite merge_sort_Permutation, elem_of_remove_dups, list_elem_of_omap.
      split.
      * intros (c & Hc & Hx). cbn in Hx. by subst c.
      * intros [_ Hx]. by exists (Some x).
  - split; [constructor |]. split; [constructor |].
    intros x. split; [by intros ?%elem_of_nil | by intros [? _]].
Qed.
